(** * shareasecret: the secret lifecycle of [internal/shareasecret/web.go]

    A shallow embedding of the four HTTP handlers that create, view, manage
    and delete a secret, of the helpers they call, and of the [secrets]
    table they read and write.  The SQL statements are modelled as list
    operations on the rows of the table; the sources of non-determinism
    (the entropy source behind [crypto/rand], the wall clock and the
    availability of the database) are explicit inputs. *)

From Stdlib Require Import List String Ascii ZArith NArith Lia Bool Arith.
From Stdlib.Strings Require Import Byte.
Import ListNotations.

Local Open Scope string_scope.
Local Open Scope Z_scope.

(** ** Go library functions used by the handlers *)

Module Go.

(** [strings.Count(s, sep)] for a separator of one byte: the number of
    bytes of [s] equal to it. *)
Fixpoint strings_Count (s : string) (sep : ascii) : nat :=
  match s with
  | EmptyString => 0%nat
  | String c t => ((if Ascii.eqb c sep then 1 else 0) + strings_Count t sep)%nat
  end.

(** [strings.Split(s, sep)] for a separator of one byte, used to speak of
    the segments of an envelope. *)
Fixpoint strings_Split (s : string) (sep : ascii) : list string :=
  match s with
  | EmptyString => [EmptyString]
  | String c t =>
      if Ascii.eqb c sep then EmptyString :: strings_Split t sep
      else match strings_Split t sep with
           | [] => [String c EmptyString]
           | seg :: segs => String c seg :: segs
           end
  end.

Definition hextable : string := "0123456789abcdef".

Definition hex_digit (n : N) : ascii :=
  match String.get (N.to_nat n) hextable with
  | Some c => c
  | None => "0"%char
  end.

(** [hex.EncodeToString]: two digits of [hextable] per byte, high nibble
    first. *)
Fixpoint hex_EncodeToString (src : list byte) : string :=
  match src with
  | [] => EmptyString
  | v :: t =>
      String (hex_digit (N.shiftr (Byte.to_N v) 4))
        (String (hex_digit (N.land (Byte.to_N v) 15))
           (hex_EncodeToString t))
  end.

(** The platform [int] is 64 bits wide. *)
Definition minInt : Z := - 2 ^ 63.
Definition maxInt : Z := 2 ^ 63 - 1.

Definition digit_of (c : ascii) : option Z :=
  let n := Z.of_N (N_of_ascii c) in
  if (48 <=? n) && (n <=? 57) then Some (n - 48) else None.

Fixpoint parse_digits (s : string) (acc : Z) : option Z :=
  match s with
  | EmptyString => Some acc
  | String c t =>
      match digit_of c with
      | Some d => parse_digits t (acc * 10 + d)
      | None => None
      end
  end.

(** [strconv.Atoi]: an optional sign, then one or more decimal digits; the
    value has to fit [int], else the call reports a range error.  [None]
    stands for a non-nil [error]. *)
Definition strconv_Atoi (s : string) : option Z :=
  match s with
  | EmptyString => None
  | String c t =>
      let neg := Ascii.eqb c "-"%char in
      let ds := if neg || Ascii.eqb c "+"%char then t else s in
      match ds with
      | EmptyString => None
      | _ =>
          match parse_digits ds 0 with
          | None => None
          | Some n =>
              let v := if neg then - n else n in
              if (minInt <=? v) && (v <=? maxInt) then Some v else None
          end
      end
  end.

(** [url.Values.Get]: the first value stored under the key, or the empty
    string. *)
Fixpoint Values_Get (vs : list (string * string)) (key : string) : string :=
  match vs with
  | [] => EmptyString
  | (k, v) :: t => if String.eqb k key then v else Values_Get t key
  end.

End Go.

(** ** The part of [net/http] the handlers use *)

Module Http.

Record Cookie : Type := mkCookie {
  Name : string;
  Value : string;
  Path : string;
  MaxAge : Z;
  Expires : option Z
}.

(** What a handler reads from [*http.Request]: the method, the form as
    [r.ParseForm] leaves it ([None] when it returns an error), the
    wildcards of the matched route and the cookies sent by the client. *)
Record Request : Type := mkRequest {
  Method : string;
  Form : option (list (string * string));
  PathValues : list (string * string);
  Cookies : list (string * string)
}.

Definition PathValue (r : Request) (name : string) : string :=
  Go.Values_Get (PathValues r) name.

(** [r.Cookie(name)]: the first cookie of that name, [None] for
    [ErrNoCookie]. *)
Fixpoint Cookie_of (cs : list (string * string)) (name : string) : option string :=
  match cs with
  | [] => None
  | (k, v) :: t => if String.eqb k name then Some v else Cookie_of t name
  end.

Section Writer.

(** The payload of a response is kept symbolic: [Body] is the type of the
    pieces written to it. *)
Variable Body : Type.

(** An [http.ResponseWriter]: the status line once it is written, the
    headers the handlers set, and the body written so far. *)
Record ResponseWriter : Type := mkResponseWriter {
  status : option Z;
  location : option string;
  set_cookie : list Cookie;
  body : list Body
}.

Definition newResponseWriter : ResponseWriter :=
  mkResponseWriter None None [] [].

(** [w.WriteHeader(code)]; a second call is ignored. *)
Definition WriteHeader (code : Z) (w : ResponseWriter) : ResponseWriter :=
  match status w with
  | Some _ => w
  | None => mkResponseWriter (Some code) (location w) (set_cookie w) (body w)
  end.

(** [w.Write(b)]; the first write sends status 200 when none was sent. *)
Definition Write_body (b : Body) (w : ResponseWriter) : ResponseWriter :=
  let w' := WriteHeader 200 w in
  mkResponseWriter (status w') (location w') (set_cookie w') (body w' ++ [b]).

(** [http.SetCookie(w, c)]; headers set after the status line are lost. *)
Definition SetCookie (c : Cookie) (w : ResponseWriter) : ResponseWriter :=
  match status w with
  | Some _ => w
  | None => mkResponseWriter None (location w) (set_cookie w ++ [c]) (body w)
  end.

(** [http.Redirect(w, r, url, code)].  Every target the handlers pass is
    an absolute, clean path, which [Redirect] leaves as it is.  [note] is
    the short HTML link [Redirect] writes for a GET request. *)
Definition Redirect (note : string -> Z -> Body) (r : Request)
    (url : string) (code : Z) (w : ResponseWriter) : ResponseWriter :=
  let w1 :=
    match status w with
    | Some _ => w
    | None => mkResponseWriter None (Some url) (set_cookie w) (body w)
    end in
  let w2 := WriteHeader code w1 in
  if String.eqb (Method r) "GET" then Write_body (note url code) w2 else w2.

End Writer.

Arguments status {Body} _.
Arguments location {Body} _.
Arguments set_cookie {Body} _.
Arguments body {Body} _.
Arguments newResponseWriter {Body}.
Arguments WriteHeader {Body} _ _.
Arguments Write_body {Body} _ _.
Arguments SetCookie {Body} _ _.
Arguments Redirect {Body} _ _ _ _ _.

Definition StatusCreated : Z := 201.
Definition StatusSeeOther : Z := 303.
Definition StatusBadRequest : Z := 400.
Definition StatusInternalServerError : Z := 500.

End Http.

(** ** The [secrets] table *)

(** Modelled from the spec: the constant [deletionReasonUserDeleted] is
    declared outside [web.go]; the spec gives the column the values
    [user_deleted] and [expired]. *)
Inductive DeletionReason : Type :=
  | deletionReasonUserDeleted
  | deletionReasonExpired.

Record Secret : Type := mkSecret {
  viewing_id : string;
  management_id : string;
  cipher_text : option string;
  ttl : Z;
  created_at : Z;
  deleted_at : option Z;
  deletion_reason : option DeletionReason
}.

Definition Table : Type := list Secret.

Inductive error : Type :=
  | ErrNoRows        (* sql.ErrNoRows *)
  | ErrScanNull      (* Scan of a NULL column into a Go string *)
  | ErrConstraint    (* a UNIQUE constraint rejected the statement *)
  | ErrUnavailable.  (* the database could not execute the statement *)

Definition error_eqb (a b : error) : bool :=
  match a, b with
  | ErrNoRows, ErrNoRows => true
  | ErrScanNull, ErrScanNull => true
  | ErrConstraint, ErrConstraint => true
  | ErrUnavailable, ErrUnavailable => true
  | _, _ => false
  end.

(** [errors.Is(err, target)] on errors that wrap nothing: when either side
    is nil the answer is whether both are, else whether they are equal. *)
Definition errors_Is (err target : option error) : bool :=
  match err, target with
  | Some a, Some b => error_eqb a b
  | None, None => true
  | _, _ => false
  end.

Definition is_null {A : Type} (x : option A) : bool :=
  match x with
  | None => true
  | Some _ => false
  end.

(** Modelled from the spec: the schema of [secrets] is declared outside
    [web.go]; the spec puts a uniqueness constraint on each identifier
    column independently. *)
Definition unique_violation (t : Table) (viewingID managementID : string) : bool :=
  existsb (fun s => String.eqb (viewing_id s) viewingID) t
  || existsb (fun s => String.eqb (management_id s) managementID) t.

(** [INSERT INTO secrets (viewing_id, management_id, cipher_text, ttl,
    created_at) VALUES (?, ?, ?, ?, ?)]; the columns it does not name are
    NULL. *)
Definition sql_insert (t : Table) (viewingID managementID secret : string)
    (ttl now : Z) : error + Table :=
  if unique_violation t viewingID managementID then inl ErrConstraint
  else inr (t ++ [mkSecret viewingID managementID (Some secret) ttl now None None])%list.

(** [SELECT cipher_text FROM secrets WHERE viewing_id = ? AND deleted_at
    IS NULL], read by [QueryRow(...).Scan(&cipherText)] into a string. *)
Definition sql_select_cipher_text (t : Table) (viewingID : string) : error + string :=
  match find (fun s => String.eqb (viewing_id s) viewingID && is_null (deleted_at s)) t with
  | None => inl ErrNoRows
  | Some s =>
      match cipher_text s with
      | None => inl ErrScanNull
      | Some c => inr c
      end
  end.

(** [SELECT viewing_id FROM secrets WHERE management_id = ? AND deleted_at
    IS NULL], read by [QueryRow(...).Scan(&secretID)]. *)
Definition sql_select_viewing_id (t : Table) (managementID : string) : error + string :=
  match find (fun s => String.eqb (management_id s) managementID && is_null (deleted_at s)) t with
  | None => inl ErrNoRows
  | Some s => inr (viewing_id s)
  end.

(** [UPDATE secrets SET deleted_at = ?, deletion_reason = ?, cipher_text =
    NULL WHERE management_id = ?]. *)
Definition sql_update_deleted (t : Table) (now : Z) (reason : DeletionReason)
    (managementID : string) : Table :=
  map (fun s =>
         if String.eqb (management_id s) managementID
         then mkSecret (viewing_id s) (management_id s) None (ttl s)
                (created_at s) (Some now) (Some reason)
         else s) t.

(** ** The application *)

Import Http.

Record notifications : Type := mkNotifications {
  errorMsg : string;
  successMsg : string
}.

(** What the handlers write to a response.  The templates are rendered
    outside [web.go]; a page is kept as the template's name applied to
    the arguments the handler passes. *)
Inductive Body : Type :=
  | Text (msg : string)
  | RedirectNote (url : string) (code : Z)
  | pageIndex (n : notifications)
  | pageViewSecret (cipherText : string) (n : notifications)
  | pageManageSecret (managementID viewURL deleteURL : string) (n : notifications).

Definition Response : Type := ResponseWriter Body.

(** [component.Render(ctx, w)]. *)
Definition Render (page : Body) (w : Response) : Response := Write_body page w.

Record Application : Type := mkApplication {
  baseURL : string
}.

(** The inputs of one request that the handler does not control:
    [now] is what [time.Now().UnixMilli()] returns, [db_up] whether the
    database executes the handler's statement. *)
Record Env : Type := mkEnv {
  now : Z;
  db_up : bool
}.

(** One call of [rand.Read]: the bytes the entropy source can deliver to
    it. *)
Definition Draw : Type := list byte.

(** The state the handlers share: the rows of [secrets] behind [a.db.db]
    and the results of the calls of [rand.Read] still to come. *)
Record World : Type := mkWorld {
  secrets : Table;
  entropy : list Draw
}.

Definition db_Exec_insert (e : Env) (t : Table)
    (viewingID managementID secret : string) (ttl : Z) : error + Table :=
  if db_up e then sql_insert t viewingID managementID secret ttl (now e)
  else inl ErrUnavailable.

Definition db_Exec_delete (e : Env) (t : Table) (managementID : string) : error + Table :=
  if db_up e then inr (sql_update_deleted t (now e) deletionReasonUserDeleted managementID)
  else inl ErrUnavailable.

Definition db_QueryRow_cipher_text (e : Env) (t : Table) (viewingID : string) : error + string :=
  if db_up e then sql_select_cipher_text t viewingID else inl ErrUnavailable.

Definition db_QueryRow_viewing_id (e : Env) (t : Table) (managementID : string) : error + string :=
  if db_up e then sql_select_viewing_id t managementID else inl ErrUnavailable.

Definition err_of {A : Type} (res : error + A) : option error :=
  match res with
  | inl err => Some err
  | inr _ => None
  end.

Definition badRequest (err : string) (w : Response) : Response :=
  Write_body (Text err) (WriteHeader StatusBadRequest w).

Definition internalServerError (w : Response) : Response :=
  WriteHeader StatusInternalServerError w.

Definition setFlash (name msg : string) (w : Response) : Response :=
  let n := "flash_" ++ name in
  SetCookie (mkCookie n msg "/" 0 None) w.

Definition setFlashErr (msg : string) (w : Response) : Response :=
  setFlash "err" msg w.

Definition setFlashSuccess (msg : string) (w : Response) : Response :=
  setFlash "success" msg w.

Definition flash (name : string) (r : Request) (w : Response) : string * Response :=
  let n := "flash_" ++ name in
  match Cookie_of (Cookies r) n with
  | None => (EmptyString, w)
  | Some v => (v, SetCookie (mkCookie n EmptyString "/" (-1) (Some 1)) w)
  end.

Definition notificationsFromRequest (r : Request) (w : Response) : notifications * Response :=
  let (e, w1) := flash "err" r w in
  let (s, w2) := flash "success" r w1 in
  (mkNotifications e s, w2).

(** [rand.Read(b)]: fills the whole buffer, or fails when the source
    delivers fewer bytes than the buffer holds. *)
Definition rand_Read (n : nat) (src : list Draw) : option (list byte) * list Draw :=
  match src with
  | [] => (None, [])
  | d :: rest =>
      if (List.length d <? n)%nat then (None, rest) else (Some (firstn n d), rest)
  end.

Definition secureID (src : list Draw) : option string * list Draw :=
  match rand_Read 24 src with
  | (None, rest) => (None, rest)
  | (Some b, rest) => (Some (Go.hex_EncodeToString b), rest)
  end.

Definition handleGetIndex (r : Request) : Response :=
  let (n, w) := notificationsFromRequest r newResponseWriter in
  Render (pageIndex n) w.

Definition handleCreateSecret (e : Env) (r : Request) (st : World) : Response * World :=
  let w := newResponseWriter in
  match Form r with
  | None => (badRequest "Unable to parse request form. Please try again." w, st)
  | Some form =>
      let secret := Go.Values_Get form "encryptedSecret" in
      if negb (Go.strings_Count secret "."%char =? 2)%nat
      then (badRequest "Secret format is invalid. Please try again." w, st)
      else
        match Go.strconv_Atoi (Go.Values_Get form "ttl") with
        | None => (badRequest "Unable to parse the TTL (time to live) for the secret." w, st)
        | Some ttl =>
            match secureID (entropy st) with
            | (None, src1) => (internalServerError w, mkWorld (secrets st) src1)
            | (Some viewingID, src1) =>
                match secureID src1 with
                | (None, src2) => (internalServerError w, mkWorld (secrets st) src2)
                | (Some managementID, src2) =>
                    match db_Exec_insert e (secrets st) viewingID managementID secret ttl with
                    | inl _ => (internalServerError w, mkWorld (secrets st) src2)
                    | inr t =>
                        (Redirect RedirectNote r ("/manage-secret/" ++ managementID)
                           StatusCreated w,
                         mkWorld t src2)
                    end
                end
            end
        end
  end.

Definition handleGetSecret (e : Env) (r : Request) (st : World) : Response * World :=
  let w := newResponseWriter in
  let viewingID := PathValue r "viewingID" in
  let res := db_QueryRow_cipher_text e (secrets st) viewingID in
  if errors_Is (Some ErrNoRows) (err_of res)
  then (Redirect RedirectNote r "/" StatusSeeOther
          (setFlashErr "Secret does not exist or has been deleted." w), st)
  else
    match res with
    | inl _ => (Redirect RedirectNote r "/oops" StatusSeeOther w, st)
    | inr cipherText =>
        let (n, w1) := notificationsFromRequest r w in
        (Render (pageViewSecret cipherText n) w1, st)
    end.

Definition handleManageSecret (a : Application) (e : Env) (r : Request) (st : World)
    : Response * World :=
  let w := newResponseWriter in
  let managementID := PathValue r "managementID" in
  let res := db_QueryRow_viewing_id e (secrets st) managementID in
  if errors_Is (Some ErrNoRows) (err_of res)
  then (Redirect RedirectNote r "/" StatusSeeOther
          (setFlashErr "Secret does not exist or has been deleted." w), st)
  else
    match res with
    | inl _ => (Redirect RedirectNote r "/oops" StatusSeeOther w, st)
    | inr secretID =>
        let (n, w1) := notificationsFromRequest r w in
        (Render (pageManageSecret managementID
                   (baseURL a ++ "/secret/" ++ secretID)
                   (baseURL a ++ "/manage-secret/" ++ managementID ++ "/delete")
                   n) w1, st)
    end.

Definition handleDeleteSecret (e : Env) (r : Request) (st : World) : Response * World :=
  let w := newResponseWriter in
  let managementID := PathValue r "managementID" in
  match db_Exec_delete e (secrets st) managementID with
  | inl _ => (Redirect RedirectNote r "/oops" StatusSeeOther w, st)
  | inr t =>
      (Redirect RedirectNote r "/" StatusSeeOther
         (setFlashSuccess "Secret successfully deleted." w),
       mkWorld t (entropy st))
  end.

(** ** Sequences of requests *)

Local Open Scope list_scope.

Inductive Call : Type :=
  | CreateSecret   (* POST /secret *)
  | GetSecret      (* GET /secret/{viewingID} *)
  | ManageSecret   (* GET /manage-secret/{managementID} *)
  | DeleteSecret.  (* POST /manage-secret/{managementID}/delete *)

Definition serve (a : Application) (c : Call) (e : Env) (r : Request) (st : World)
    : Response * World :=
  match c with
  | CreateSecret => handleCreateSecret e r st
  | GetSecret => handleGetSecret e r st
  | ManageSecret => handleManageSecret a e r st
  | DeleteSecret => handleDeleteSecret e r st
  end.

(** The world after a sequence of requests, each with its own inputs. *)
Fixpoint run (a : Application) (calls : list (Call * Env * Request)) (st : World) : World :=
  match calls with
  | [] => st
  | (c, e, r) :: rest => run a rest (snd (serve a c e r st))
  end.

(** The only ways a handler changes the table. *)
Inductive table_step (t : Table) : Table -> Prop :=
  | step_none : table_step t t
  | step_insert (viewingID managementID secret : string) (ttl now : Z) :
      unique_violation t viewingID managementID = false ->
      table_step t
        (t ++ [mkSecret viewingID managementID (Some secret) ttl now None None])%list
  | step_delete (now : Z) (managementID : string) :
      table_step t (sql_update_deleted t now deletionReasonUserDeleted managementID).

(** The responses the handlers send when nothing is found, when the
    database fails, and when a delete went through. *)
Definition notFound (r : Request) : Response :=
  Redirect RedirectNote r "/" StatusSeeOther
    (setFlashErr "Secret does not exist or has been deleted." newResponseWriter).

Definition oops (r : Request) : Response :=
  Redirect RedirectNote r "/oops" StatusSeeOther newResponseWriter.

Definition deleted (r : Request) : Response :=
  Redirect RedirectNote r "/" StatusSeeOther
    (setFlashSuccess "Secret successfully deleted." newResponseWriter).

(** A viewing identifier no row carries. *)
Definition never_existed (viewingID : string) (t : Table) : Prop :=
  existsb (fun s => String.eqb (viewing_id s) viewingID) t = false.

(** The secret [(viewingID, managementID)] has a row, and every row under
    its viewing identifier is under its management identifier. *)
Definition stored (viewingID managementID : string) (t : Table) : Prop :=
  (exists s, In s t /\ viewing_id s = viewingID /\ management_id s = managementID)
  /\ (forall s, In s t -> viewing_id s = viewingID -> management_id s = managementID).

(** The secret [(viewingID, managementID)] is stored and every row under
    its management identifier is deleted by the user, its ciphertext
    NULL. *)
Definition scrubbed (viewingID managementID : string) (t : Table) : Prop :=
  stored viewingID managementID t
  /\ (forall s, In s t -> management_id s = managementID ->
        cipher_text s = None /\ deleted_at s <> None
        /\ deletion_reason s = Some deletionReasonUserDeleted).

(** ** Responses and lives of a secret *)

(** The life of a secret that ends deleted: a create adds the row [s],
    requests [mid] follow, a delete names the management identifier of
    [s] and reaches the database, requests [post] follow. *)
Definition deleted_life (a : Application) (st0 : World) (ec : Env) (rc : Request)
    (mid : list (Call * Env * Request)) (ed : Env) (rd : Request)
    (post : list (Call * Env * Request)) : World :=
  run a post
    (snd (handleDeleteSecret ed rd
            (run a mid (snd (handleCreateSecret ec rc st0))))).

(** A row without its ciphertext. *)
Definition erase_cipher_text (s : Secret) : Secret :=
  mkSecret (viewing_id s) (management_id s) None (ttl s) (created_at s)
    (deleted_at s) (deletion_reason s).

(** The page a manage request renders for the viewing identifier
    [secretID]. *)
Definition managePage (a : Application) (r : Request) (secretID : string) : Response :=
  let managementID := PathValue r "managementID" in
  let (n, w1) := notificationsFromRequest r newResponseWriter in
  Render (pageManageSecret managementID
            (baseURL a ++ "/secret/" ++ secretID)%string
            (baseURL a ++ "/manage-secret/" ++ managementID ++ "/delete")%string
            n) w1.

(** A row without its time of deletion. *)
Definition forget_deleted_at (s : Secret) : Secret :=
  mkSecret (viewing_id s) (management_id s) (cipher_text s) (ttl s) (created_at s)
    None (deletion_reason s).

(** A row with [d] as its time of deletion and every other column as it
    is. *)
Definition set_deleted_at (d : Z) (s : Secret) : Secret :=
  mkSecret (viewing_id s) (management_id s) (cipher_text s) (ttl s) (created_at s)
    (Some d) (deletion_reason s).

Definition formatInvalid : Response :=
  badRequest "Secret format is invalid. Please try again." newResponseWriter.

Definition ttlInvalid : Response :=
  badRequest "Unable to parse the TTL (time to live) for the secret." newResponseWriter.

Definition created (r : Request) (managementID : string) : Response :=
  Redirect RedirectNote r ("/manage-secret/" ++ managementID)%string StatusCreated
    newResponseWriter.

(** The envelope and the TTL a create request carries. *)
Definition envelope_of (form : list (string * string)) : string :=
  Go.Values_Get form "encryptedSecret".

Definition ttl_of (form : list (string * string)) : string :=
  Go.Values_Get form "ttl".

Fixpoint string_forallb (p : ascii -> bool) (s : string) : bool :=
  match s with
  | EmptyString => true
  | String c t => p c && string_forallb p t
  end.

Definition is_hex_digit (c : ascii) : bool :=
  existsb (Ascii.eqb c) (list_ascii_of_string Go.hextable).

Definition is_digit (c : ascii) : bool :=
  let n := Z.of_N (N_of_ascii c) in (48 <=? n) && (n <=? 57).

(** The number a string of decimal digits writes, continuing from [acc]. *)
Fixpoint decimal_value (acc : Z) (digits : string) : Z :=
  match digits with
  | EmptyString => acc
  | String c t => decimal_value (acc * 10 + (Z.of_N (N_of_ascii c) - 48)) t
  end.

(** [s] writes the integer [n] in decimal: an optional sign, then one or
    more digits. *)
Definition decimal_int (s : string) (n : Z) : Prop :=
  exists sign digits,
    s = (sign ++ digits)%string
    /\ (sign = "" \/ sign = "+" \/ sign = "-")%string
    /\ digits <> EmptyString
    /\ string_forallb is_digit digits = true
    /\ n = (if String.eqb sign "-" then - decimal_value 0 digits
            else decimal_value 0 digits).

(** What the code asks of a TTL, and all it asks: that it writes, in
    decimal, an integer that fits the platform [int]. *)
Definition ttl_parses (s : string) : Prop :=
  exists n, decimal_int s n /\ Go.minInt <= n <= Go.maxInt.

(** [k] times the digit zero. *)
Fixpoint zeros (k : nat) : string :=
  match k with
  | O => EmptyString
  | S k' => String "0" (zeros k')
  end.

(** The page a view request renders for a ciphertext. *)
Definition viewPage (r : Request) (cipherText : string) : Response :=
  let (n, w1) := notificationsFromRequest r newResponseWriter in
  Render (pageViewSecret cipherText n) w1.

(** ** A concrete scenario *)

Module Scenario.

Definition app : Application := mkApplication "https://secrets.example".

Definition draw1 : Draw := repeat x01 24.
Definition draw2 : Draw := repeat xa2 24.
Definition draw3 : Draw := repeat x03 24.
Definition draw4 : Draw := repeat xa4 24.

Definition id1 : string := "010101010101010101010101010101010101010101010101".
Definition id2 : string := "a2a2a2a2a2a2a2a2a2a2a2a2a2a2a2a2a2a2a2a2a2a2a2a2".

Definition empty : World := mkWorld [] [draw1; draw2; draw3; draw4].

Definition create (envelope ttl : string) : Request :=
  mkRequest "POST" (Some [("ttl", ttl); ("encryptedSecret", envelope)]) [] [].

Definition view (viewingID : string) : Request :=
  mkRequest "GET" None [("viewingID", viewingID)] [].

Definition manage (managementID : string) : Request :=
  mkRequest "GET" None [("managementID", managementID)] [].

Definition delete (managementID : string) : Request :=
  mkRequest "POST" None [("managementID", managementID)] [].

Definition at_time (t : Z) : Env := mkEnv t true.

Definition secret1 : Secret :=
  mkSecret id1 id2 (Some "abc.def.ghi") 3600 1000 None None.

(** One secret created at time 1000. *)
Definition one : World :=
  snd (handleCreateSecret (at_time 1000) (create "abc.def.ghi" "3600") empty).

(** That secret viewed, then deleted at time 2000, then managed. *)
Definition gone : World :=
  deleted_life app empty (at_time 1000) (create "abc.def.ghi" "3600")
    [(GetSecret, at_time 1500, view id1)]
    (at_time 2000) (delete id2)
    [(ManageSecret, at_time 2500, manage id2)].

End Scenario.

(** ** Histories of the table *)

(** How a row may change while it stays in the table: its identifiers,
    TTL and time of creation stay, its ciphertext stays or becomes NULL,
    and a time of deletion, once set, stays set. *)
Definition row_evolves (s s' : Secret) : Prop :=
  viewing_id s' = viewing_id s
  /\ management_id s' = management_id s
  /\ ttl s' = ttl s
  /\ created_at s' = created_at s
  /\ (cipher_text s' = cipher_text s \/ cipher_text s' = None)
  /\ (deleted_at s <> None -> deleted_at s' <> None).

(** [t'] continues [t]: the rows of [t] are still there, in place, each
    evolved, and rows may have been added after them. *)
Definition history (t t' : Table) : Prop :=
  exists kept added, t' = kept ++ added /\ Forall2 row_evolves t kept.

(** The row [s] is in the table and is the only row under either of its
    identifiers. *)
Definition live (s : Secret) (t : Table) : Prop :=
  In s t
  /\ forall s', In s' t ->
       viewing_id s' = viewing_id s \/ management_id s' = management_id s ->
       s' = s.

(** No delete among the requests names the management identifier. *)
Definition spares (managementID : string) (calls : list (Call * Env * Request)) : bool :=
  forallb (fun x =>
             match x with
             | (DeleteSecret, _, r) =>
                 negb (String.eqb (PathValue r "managementID") managementID)
             | _ => true
             end) calls.

Definition is_identifier (id : string) : Prop :=
  String.length id = 48%nat /\ string_forallb is_hex_digit id = true.

(** A row as the handlers leave it: either active, with an envelope of
    two separators and no mark of deletion, or deleted by the user, with
    no ciphertext. *)
Definition well_formed_row (s : Secret) : Prop :=
  is_identifier (viewing_id s)
  /\ is_identifier (management_id s)
  /\ Go.minInt <= ttl s <= Go.maxInt
  /\ ((exists c, cipher_text s = Some c /\ Go.strings_Count c "." = 2%nat
                 /\ deleted_at s = None /\ deletion_reason s = None)
      \/ (cipher_text s = None /\ deleted_at s <> None
          /\ deletion_reason s = Some deletionReasonUserDeleted)).

Definition well_formed (t : Table) : Prop :=
  Forall well_formed_row t
  /\ NoDup (map viewing_id t)
  /\ NoDup (map management_id t).

(** ** Reading identifiers and notifications back *)

Fixpoint index_of (c : ascii) (l : list ascii) : option N :=
  match l with
  | [] => None
  | x :: t => if Ascii.eqb x c then Some 0%N else option_map N.succ (index_of c t)
  end.

(** The place of a digit in [hextable]. *)
Definition hex_value (c : ascii) : option N :=
  index_of c (list_ascii_of_string Go.hextable).

(** The bytes a string of [hextable] digits writes, two digits a byte:
    the inverse of [hex_EncodeToString]. *)
Fixpoint hex_decode (s : string) : option (list byte) :=
  match s with
  | EmptyString => Some []
  | String hi (String lo t) =>
      match hex_value hi, hex_value lo, hex_decode t with
      | Some h, Some l, Some bs =>
          match Byte.of_N (16 * h + l) with
          | Some b => Some (b :: bs)
          | None => None
          end
      | _, _, _ => None
      end
  | String _ EmptyString => None
  end.

(** The client sends with the request [r] every cookie the response [w]
    set, under its name and with its value. *)
Definition returns_cookies (w : Response) (r : Request) : Prop :=
  forall c, In c (set_cookie w) -> Cookie_of (Cookies r) (Name c) = Some (Value c).

(** The cookie [flash] sets to make the client drop a notification. *)
Definition expired (name : string) : Cookie :=
  mkCookie ("flash_" ++ name)%string EmptyString "/" (-1) (Some 1).

(** ** Routes *)

(** The handler [mapRoutes] registers for a request. *)
Inductive Route : Type :=
  | RouteStatic            (* GET /static/ *)
  | RouteRobots            (* GET /robots.txt *)
  | RouteIndex             (* GET / *)
  | RouteNoJavascript      (* GET /nojs *)
  | RouteOops              (* GET /oops *)
  | RouteCreateSecret      (* POST /secret *)
  | RouteGetSecret (viewingID : string)         (* GET /secret/{viewingID} *)
  | RouteManageSecret (managementID : string)   (* GET /manage-secret/{managementID} *)
  | RouteDeleteSecret (managementID : string).  (* POST /manage-secret/{managementID}/delete *)

(** The segments of a path that starts with a slash. *)
Definition segments (path : string) : option (list string) :=
  match path with
  | String c rest => if Ascii.eqb c "/" then Some (Go.strings_Split rest "/") else None
  | EmptyString => None
  end.

(** A segment the router takes as it is: not empty, not [.] or [..], and
    free of escapes. *)
Definition plain_segment (s : string) : bool :=
  negb (String.eqb s "") && negb (String.eqb s ".") && negb (String.eqb s "..")
  && string_forallb (fun c => negb (Ascii.eqb c "%")) s.

(** A path the router does not redirect to a cleaner one: plain segments,
    the last of which may be empty (a trailing slash). *)
Fixpoint clean (segs : list string) : bool :=
  match segs with
  | [] => false
  | [s] => plain_segment s || String.eqb s ""
  | s :: rest => plain_segment s && clean rest
  end.

(** A pattern registered for GET serves HEAD too. *)
Definition is_GET (method : string) : bool :=
  String.eqb method "GET" || String.eqb method "HEAD".

(** [mapRoutes], read through the matching rules of [http.ServeMux] on
    clean paths without escapes: a wildcard takes one segment that is
    not empty, a pattern that ends in a slash takes every path under it,
    and the most specific pattern wins.  [None] stands for the requests
    the router answers itself: a redirect to a cleaner path or to
    [/static/], and 405 when only patterns of another method match. *)
Definition mapRoutes (method path : string) : option Route :=
  match segments path with
  | None => None
  | Some segs =>
      if negb (clean segs) then None
      else if is_GET method then
        match segs with
        | [s] =>
            if String.eqb s "robots.txt" then Some RouteRobots
            else if String.eqb s "nojs" then Some RouteNoJavascript
            else if String.eqb s "oops" then Some RouteOops
            else if String.eqb s "static" then None
            else Some RouteIndex
        | s1 :: s2 :: rest =>
            if String.eqb s1 "static" then Some RouteStatic
            else
              match rest with
              | [] =>
                  if String.eqb s1 "secret" && negb (String.eqb s2 "")
                  then Some (RouteGetSecret s2)
                  else if String.eqb s1 "manage-secret" && negb (String.eqb s2 "")
                  then Some (RouteManageSecret s2)
                  else Some RouteIndex
              | _ => Some RouteIndex
              end
        | [] => None
        end
      else if String.eqb method "POST" then
        match segs with
        | [s] => if String.eqb s "secret" then Some RouteCreateSecret else None
        | [s1; s2; s3] =>
            if String.eqb s1 "manage-secret" && negb (String.eqb s2 "")
               && String.eqb s3 "delete"
            then Some (RouteDeleteSecret s2)
            else None
        | _ => None
        end
      else None
  end.

(** The request as a handler sees it once the router has bound the
    wildcard of its pattern. *)
Definition with_PathValue (r : Request) (name value : string) : Request :=
  mkRequest (Method r) (Form r) [(name, value)] (Cookies r).

(** [ServeHTTP] for the routes [web.go] handles itself; the logging
    handler around the router changes neither request nor response.
    [None] stands for the requests answered outside [web.go]: by the
    router, the file server or the two fixed pages. *)
Definition ServeHTTP (a : Application) (e : Env) (path : string) (r : Request)
    (st : World) : option (Response * World) :=
  match mapRoutes (Method r) path with
  | Some RouteIndex => Some (handleGetIndex r, st)
  | Some RouteCreateSecret => Some (handleCreateSecret e r st)
  | Some (RouteGetSecret viewingID) =>
      Some (handleGetSecret e (with_PathValue r "viewingID" viewingID) st)
  | Some (RouteManageSecret managementID) =>
      Some (handleManageSecret a e (with_PathValue r "managementID" managementID) st)
  | Some (RouteDeleteSecret managementID) =>
      Some (handleDeleteSecret e (with_PathValue r "managementID" managementID) st)
  | _ => None
  end.

(** ** The clock *)

(** The times the requests read never go back, starting from [t0]. *)
Fixpoint clock_runs_forward (t0 : Z) (calls : list (Call * Env * Request)) : bool :=
  match calls with
  | [] => true
  | (_, e, _) :: rest => (t0 <=? now e) && clock_runs_forward (now e) rest
  end.

(** No row was created after [t0], and a deleted row was deleted between
    its creation and [t0]. *)
Definition times_ordered (t0 : Z) (t : Table) : Prop :=
  forall s, In s t ->
    created_at s <= t0
    /\ forall d, deleted_at s = Some d -> created_at s <= d <= t0.

(** ** Lemmas on the library functions *)

Lemma find_none_intro {A : Type} (f : A -> bool) (l : list A) :
  (forall x, In x l -> f x = false) -> find f l = None.
Proof.
  induction l as [|x l IH]; intros H; simpl; [reflexivity|].
  rewrite (H x (or_introl eq_refl)).
  apply IH. intros y Hy. apply H. right. exact Hy.
Qed.

Lemma existsb_false_iff {A : Type} (f : A -> bool) (l : list A) :
  existsb f l = false <-> (forall x, In x l -> f x = false).
Proof.
  split.
  - intros H x Hx. destruct (f x) eqn:E; [|reflexivity].
    assert (existsb f l = true) by (apply existsb_exists; eauto).
    congruence.
  - intros H. destruct (existsb f l) eqn:E; [|reflexivity].
    apply existsb_exists in E. destruct E as (x & Hx & Hf).
    rewrite (H x Hx) in Hf. discriminate.
Qed.

Lemma unique_violation_false (t : Table) (v m : string) :
  unique_violation t v m = false <->
  (forall s, In s t -> viewing_id s <> v /\ management_id s <> m).
Proof.
  unfold unique_violation. rewrite orb_false_iff, !existsb_false_iff.
  split.
  - intros [Hv Hm] s Hs. split.
    + apply String.eqb_neq. apply Hv. exact Hs.
    + apply String.eqb_neq. apply Hm. exact Hs.
  - intros H. split; intros s Hs; apply String.eqb_neq; apply (H s Hs).
Qed.

Lemma in_sql_update_deleted (t : Table) (now : Z) (reason : DeletionReason)
    (m : string) (s' : Secret) :
  In s' (sql_update_deleted t now reason m) <->
  exists s, In s t /\
    s' = (if String.eqb (management_id s) m
          then mkSecret (viewing_id s) (management_id s) None (ttl s)
                 (created_at s) (Some now) (Some reason)
          else s).
Proof.
  unfold sql_update_deleted. rewrite in_map_iff.
  split; intros (s & H1 & H2); exists s; split; auto.
Qed.

(** ** The table under the handlers *)

Lemma db_Exec_insert_inr (e : Env) (t t' : Table) (v m c : string) (n : Z) :
  db_Exec_insert e t v m c n = inr t' ->
  db_up e = true /\ unique_violation t v m = false /\
  t' = (t ++ [mkSecret v m (Some c) n (now e) None None])%list.
Proof.
  unfold db_Exec_insert, sql_insert.
  destruct (db_up e); [|discriminate].
  destruct (unique_violation t v m); [discriminate|].
  intros H. inversion H. auto.
Qed.

Lemma handleCreateSecret_step (e : Env) (r : Request) (st : World) :
  table_step (secrets st) (secrets (snd (handleCreateSecret e r st))).
Proof.
  unfold handleCreateSecret.
  destruct (Form r) as [form|]; [|constructor].
  destruct (negb _); [constructor|].
  destruct (Go.strconv_Atoi _) as [n|]; [|constructor].
  destruct (secureID (entropy st)) as [[v|] src1]; [|constructor].
  destruct (secureID src1) as [[m|] src2]; [|constructor].
  destruct (db_Exec_insert _ _ _ _ _ _) as [err|t'] eqn:E; [constructor|].
  apply db_Exec_insert_inr in E. destruct E as (_ & Hu & ->).
  simpl. constructor. exact Hu.
Qed.

Lemma handleGetSecret_world (e : Env) (r : Request) (st : World) :
  snd (handleGetSecret e r st) = st.
Proof.
  unfold handleGetSecret.
  destruct (errors_Is _ _); [reflexivity|].
  destruct (db_QueryRow_cipher_text _ _ _); [reflexivity|].
  destruct (notificationsFromRequest _ _). reflexivity.
Qed.

Lemma handleManageSecret_world (a : Application) (e : Env) (r : Request) (st : World) :
  snd (handleManageSecret a e r st) = st.
Proof.
  unfold handleManageSecret.
  destruct (errors_Is _ _); [reflexivity|].
  destruct (db_QueryRow_viewing_id _ _ _); [reflexivity|].
  destruct (notificationsFromRequest _ _). reflexivity.
Qed.

Lemma handleDeleteSecret_step (e : Env) (r : Request) (st : World) :
  table_step (secrets st) (secrets (snd (handleDeleteSecret e r st))).
Proof.
  unfold handleDeleteSecret, db_Exec_delete.
  destruct (db_up e); simpl; constructor.
Qed.

Lemma serve_step (a : Application) (c : Call) (e : Env) (r : Request) (st : World) :
  table_step (secrets st) (secrets (snd (serve a c e r st))).
Proof.
  destruct c; simpl.
  - apply handleCreateSecret_step.
  - rewrite handleGetSecret_world. constructor.
  - rewrite handleManageSecret_world. constructor.
  - apply handleDeleteSecret_step.
Qed.

(** An invariant of every step of the table holds after any sequence of
    requests. *)
Lemma run_invariant (P : Table -> Prop) :
  (forall t t', table_step t t' -> P t -> P t') ->
  forall a calls st, P (secrets st) -> P (secrets (run a calls st)).
Proof.
  intros Hstep a calls.
  induction calls as [|[[c e] r] rest IH]; intros st HP; simpl; [exact HP|].
  apply IH. apply (Hstep (secrets st)); [apply serve_step | exact HP].
Qed.

Lemma stored_insert (t : Table) (v m c : string) (n now : Z) :
  unique_violation t v m = false ->
  stored v m (t ++ [mkSecret v m (Some c) n now None None]).
Proof.
  intros Hu. rewrite unique_violation_false in Hu. split.
  - eexists. split; [apply in_or_app; right; left; reflexivity|]. auto.
  - intros s Hs Hv. apply in_app_or in Hs. destruct Hs as [Hs|[<-|[]]].
    + destruct (Hu s Hs) as [Hn _]. contradiction.
    + reflexivity.
Qed.

Lemma stored_step (v m : string) (t t' : Table) :
  table_step t t' -> stored v m t -> stored v m t'.
Proof.
  intros Hstep [(s0 & Hin0 & Hv0 & Hm0) Hall].
  destruct Hstep as [|v' m' c n now Hu|now m'].
  - split; eauto.
  - rewrite unique_violation_false in Hu. split.
    + exists s0. split; [apply in_or_app; left; exact Hin0|auto].
    + intros s Hs Hv. apply in_app_or in Hs. destruct Hs as [Hs|[<-|[]]].
      * apply Hall; assumption.
      * simpl in Hv. subst v'. destruct (Hu s0 Hin0) as [Hn _]. contradiction.
  - split.
    + eexists. split; [apply in_sql_update_deleted; exists s0; split; [exact Hin0|reflexivity]|].
      destruct (String.eqb (management_id s0) m'); simpl; auto.
    + intros s Hs Hv. apply in_sql_update_deleted in Hs.
      destruct Hs as (s1 & Hin1 & ->).
      destruct (String.eqb (management_id s1) m'); simpl in *; apply Hall; assumption.
Qed.

Lemma scrubbed_delete (v m : string) (t : Table) (now : Z) :
  stored v m t ->
  scrubbed v m (sql_update_deleted t now deletionReasonUserDeleted m).
Proof.
  intros Hst. split.
  - apply (stored_step v m t); [constructor | exact Hst].
  - intros s Hs Hm. apply in_sql_update_deleted in Hs.
    destruct Hs as (s1 & Hin1 & ->).
    destruct (String.eqb (management_id s1) m) eqn:E; simpl in *.
    + repeat split; congruence.
    + apply String.eqb_neq in E. contradiction.
Qed.

Lemma scrubbed_step (v m : string) (t t' : Table) :
  table_step t t' -> scrubbed v m t -> scrubbed v m t'.
Proof.
  intros Hstep [Hst Hall]. split; [apply (stored_step v m t); assumption|].
  destruct Hst as [(s0 & Hin0 & Hv0 & Hm0) _].
  destruct Hstep as [|v' m' c n now Hu|now m'].
  - exact Hall.
  - rewrite unique_violation_false in Hu.
    intros s Hs Hm. apply in_app_or in Hs. destruct Hs as [Hs|[<-|[]]].
    + apply Hall; assumption.
    + simpl in Hm. subst m'. destruct (Hu s0 Hin0) as [_ Hn]. contradiction.
  - intros s Hs Hm. apply in_sql_update_deleted in Hs.
    destruct Hs as (s1 & Hin1 & ->).
    destruct (String.eqb (management_id s1) m') eqn:E; simpl in *.
    + repeat split; congruence.
    + apply Hall; assumption.
Qed.

Lemma scrubbed_no_row (v m : string) (t : Table) :
  scrubbed v m t -> sql_select_cipher_text t v = inl ErrNoRows.
Proof.
  intros [[_ Hvm] Hall]. unfold sql_select_cipher_text.
  rewrite find_none_intro; [reflexivity|].
  intros s Hs. destruct (String.eqb (viewing_id s) v) eqn:E; [|reflexivity].
  apply String.eqb_eq in E. simpl.
  destruct (Hall s Hs (Hvm s Hs E)) as (_ & Hd & _).
  destruct (deleted_at s); [reflexivity|contradiction].
Qed.

Lemma never_existed_no_row (v : string) (t : Table) :
  never_existed v t -> sql_select_cipher_text t v = inl ErrNoRows.
Proof.
  unfold never_existed. rewrite existsb_false_iff.
  intros Hne. unfold sql_select_cipher_text.
  rewrite find_none_intro; [reflexivity|].
  intros s Hs. rewrite (Hne s Hs). reflexivity.
Qed.

(** What a view answers when the query finds no row. *)
Lemma handleGetSecret_no_row (e : Env) (r : Request) (st : World) :
  sql_select_cipher_text (secrets st) (PathValue r "viewingID") = inl ErrNoRows ->
  fst (handleGetSecret e r st) = if db_up e then notFound r else oops r.
Proof.
  intros H. unfold handleGetSecret, db_QueryRow_cipher_text.
  destruct (db_up e); [rewrite H|]; reflexivity.
Qed.

(** A create that adds the row [s] to the table found both identifiers of
    [s] unused. *)
Lemma created_fresh (e : Env) (r : Request) (st : World) (s : Secret) :
  secrets (snd (handleCreateSecret e r st)) = secrets st ++ [s] ->
  unique_violation (secrets st) (viewing_id s) (management_id s) = false.
Proof.
  intros H. pose proof (handleCreateSecret_step e r st) as Hstep.
  rewrite H in Hstep. clear H.
  remember (secrets st ++ [s]) as t' eqn:Et'.
  destruct Hstep as [|v m c n now Hu|now m].
  - apply (f_equal (@List.length Secret)) in Et'.
    rewrite length_app in Et'. simpl in Et'. lia.
  - apply app_inv_head in Et'. inversion Et'. subst s. exact Hu.
  - apply (f_equal (@List.length Secret)) in Et'.
    unfold sql_update_deleted in Et'.
    rewrite length_map, length_app in Et'. simpl in Et'. lia.
Qed.

Lemma created_stored (e : Env) (r : Request) (st : World) (s : Secret) :
  secrets (snd (handleCreateSecret e r st)) = secrets st ++ [s] ->
  stored (viewing_id s) (management_id s) (secrets (snd (handleCreateSecret e r st))).
Proof.
  intros H. pose proof (created_fresh e r st s H) as Hu.
  rewrite H. rewrite unique_violation_false in Hu. split.
  - exists s. split; [apply in_or_app; right; left; reflexivity|]. auto.
  - intros s' Hs Hv. apply in_app_or in Hs. destruct Hs as [Hs|[<-|[]]].
    + destruct (Hu s' Hs) as [Hn _]. contradiction.
    + reflexivity.
Qed.

Lemma deleted_life_scrubbed (a : Application) (st0 : World) (ec : Env) (rc : Request)
    (mid : list (Call * Env * Request)) (ed : Env) (rd : Request)
    (post : list (Call * Env * Request)) (s : Secret) :
  secrets (snd (handleCreateSecret ec rc st0)) = secrets st0 ++ [s] ->
  PathValue rd "managementID" = management_id s ->
  db_up ed = true ->
  scrubbed (viewing_id s) (management_id s)
    (secrets (deleted_life a st0 ec rc mid ed rd post)).
Proof.
  intros Hc Hm Hup. unfold deleted_life.
  apply run_invariant; [intros t t'; apply scrubbed_step|].
  unfold handleDeleteSecret, db_Exec_delete. rewrite Hup, Hm. simpl.
  apply scrubbed_delete.
  apply (run_invariant (stored (viewing_id s) (management_id s)));
    [intros t t'; apply stored_step|].
  apply created_stored. exact Hc.
Qed.

(** ** Viewing a deleted secret *)

(** C1. A viewing identifier that was created and then deleted is
    answered as one that never existed: after a create that stored the
    row [s], any requests, a delete with the management identifier of [s]
    and any further requests, a view with the viewing identifier of [s]
    sends the same response as in any world where no row carries that
    identifier (the world before the create among them), namely the
    not-found notification and redirect whenever the database answers. *)
Theorem view_deleted_like_never_existed
    (a : Application) (st0 : World) (ec : Env) (rc : Request)
    (mid : list (Call * Env * Request)) (ed : Env) (rd : Request)
    (post : list (Call * Env * Request)) (s : Secret)
    (e : Env) (r : Request) (stB : World) :
  secrets (snd (handleCreateSecret ec rc st0)) = secrets st0 ++ [s] ->
  PathValue rd "managementID" = management_id s ->
  db_up ed = true ->
  PathValue r "viewingID" = viewing_id s ->
  never_existed (viewing_id s) (secrets stB) ->
  let stA := deleted_life a st0 ec rc mid ed rd post in
  fst (handleGetSecret e r stA) = fst (handleGetSecret e r stB)
  /\ fst (handleGetSecret e r stA) = fst (handleGetSecret e r st0)
  /\ fst (handleGetSecret e r stA) = (if db_up e then notFound r else oops r).
Proof.
  intros Hc Hm Hup Hv HB stA.
  assert (HA : fst (handleGetSecret e r stA) = if db_up e then notFound r else oops r).
  { apply handleGetSecret_no_row. rewrite Hv.
    apply (scrubbed_no_row _ (management_id s)).
    apply deleted_life_scrubbed; assumption. }
  assert (never_existed (viewing_id s) (secrets st0)) as H0.
  { pose proof (created_fresh ec rc st0 s Hc) as Hu.
    unfold unique_violation in Hu. apply orb_false_iff in Hu. apply Hu. }
  repeat split.
  - rewrite HA. symmetry. apply handleGetSecret_no_row. rewrite Hv.
    apply never_existed_no_row. exact HB.
  - rewrite HA. symmetry. apply handleGetSecret_no_row. rewrite Hv.
    apply never_existed_no_row. exact H0.
  - exact HA.
Qed.

Lemma view_deleted_like_never_existed_witness :
  fst (handleGetSecret (Scenario.at_time 3000) (Scenario.view Scenario.id1) Scenario.gone)
  = fst (handleGetSecret (Scenario.at_time 3000) (Scenario.view Scenario.id1)
           (mkWorld [] []))
  /\ fst (handleGetSecret (Scenario.at_time 3000) (Scenario.view Scenario.id1) Scenario.gone)
     = fst (handleGetSecret (Scenario.at_time 3000) (Scenario.view Scenario.id1)
              Scenario.empty)
  /\ fst (handleGetSecret (Scenario.at_time 3000) (Scenario.view Scenario.id1) Scenario.gone)
     = notFound (Scenario.view Scenario.id1).
Proof.
  apply (view_deleted_like_never_existed Scenario.app Scenario.empty
           (Scenario.at_time 1000) (Scenario.create "abc.def.ghi" "3600")
           [(GetSecret, Scenario.at_time 1500, Scenario.view Scenario.id1)]
           (Scenario.at_time 2000) (Scenario.delete Scenario.id2)
           [(ManageSecret, Scenario.at_time 2500, Scenario.manage Scenario.id2)]
           Scenario.secret1
           (Scenario.at_time 3000) (Scenario.view Scenario.id1) (mkWorld [] []));
    reflexivity.
Defined.

(** C2. After a create that stored the row [s] and a delete with its
    management identifier, however many requests come in between and
    after, a view with the viewing identifier of [s] is answered as not
    found, the secret still has its row, and every row under its
    management identifier has [cipher_text] NULL, [deleted_at] set and
    the reason [user_deleted]. *)
Theorem deleted_secret_is_scrubbed
    (a : Application) (st0 : World) (ec : Env) (rc : Request)
    (mid : list (Call * Env * Request)) (ed : Env) (rd : Request)
    (post : list (Call * Env * Request)) (s : Secret) :
  secrets (snd (handleCreateSecret ec rc st0)) = secrets st0 ++ [s] ->
  PathValue rd "managementID" = management_id s ->
  db_up ed = true ->
  let st := deleted_life a st0 ec rc mid ed rd post in
  (forall e r, PathValue r "viewingID" = viewing_id s ->
     handleGetSecret e r st = (if db_up e then notFound r else oops r, st))
  /\ (exists s', In s' (secrets st) /\ viewing_id s' = viewing_id s
                 /\ management_id s' = management_id s)
  /\ (forall s', In s' (secrets st) -> management_id s' = management_id s ->
        cipher_text s' = None /\ deleted_at s' <> None
        /\ deletion_reason s' = Some deletionReasonUserDeleted).
Proof.
  intros Hc Hm Hup st.
  pose proof (deleted_life_scrubbed a st0 ec rc mid ed rd post s Hc Hm Hup) as Hs.
  fold st in Hs. split; [|split].
  - intros e r Hv. apply injective_projections; simpl.
    + apply handleGetSecret_no_row. rewrite Hv.
      apply (scrubbed_no_row _ (management_id s)). exact Hs.
    + apply handleGetSecret_world.
  - destruct Hs as [[Hex _] _]. exact Hex.
  - destruct Hs as [_ Hall]. exact Hall.
Qed.

Lemma deleted_secret_is_scrubbed_witness :
  (forall e r, PathValue r "viewingID" = Scenario.id1 ->
     handleGetSecret e r Scenario.gone
     = (if db_up e then notFound r else oops r, Scenario.gone))
  /\ (exists s', In s' (secrets Scenario.gone) /\ viewing_id s' = Scenario.id1
                 /\ management_id s' = Scenario.id2)
  /\ (forall s', In s' (secrets Scenario.gone) -> management_id s' = Scenario.id2 ->
        cipher_text s' = None /\ deleted_at s' <> None
        /\ deletion_reason s' = Some deletionReasonUserDeleted).
Proof.
  apply (deleted_secret_is_scrubbed Scenario.app Scenario.empty
           (Scenario.at_time 1000) (Scenario.create "abc.def.ghi" "3600")
           [(GetSecret, Scenario.at_time 1500, Scenario.view Scenario.id1)]
           (Scenario.at_time 2000) (Scenario.delete Scenario.id2)
           [(ManageSecret, Scenario.at_time 2500, Scenario.manage Scenario.id2)]
           Scenario.secret1);
    reflexivity.
Defined.

(** ** Managing a secret *)

Lemma sql_select_viewing_id_erase (t : Table) (m : string) :
  sql_select_viewing_id (map erase_cipher_text t) m = sql_select_viewing_id t m.
Proof.
  unfold sql_select_viewing_id.
  induction t as [|s t IH]; simpl; [reflexivity|].
  destruct (String.eqb (management_id s) m && is_null (deleted_at s)); [reflexivity|].
  exact IH.
Qed.

Lemma sql_select_viewing_id_inr (t : Table) (m v : string) :
  sql_select_viewing_id t m = inr v ->
  exists s, In s t /\ management_id s = m /\ deleted_at s = None /\ viewing_id s = v.
Proof.
  unfold sql_select_viewing_id.
  destruct (find _ t) as [s|] eqn:E; [|discriminate].
  intros H. inversion H. subst v. apply find_some in E. destruct E as [Hin Hb].
  apply andb_true_iff in Hb. destruct Hb as [Hm Hd].
  exists s. repeat split; auto.
  - apply String.eqb_eq. exact Hm.
  - destruct (deleted_at s); [discriminate|reflexivity].
Qed.

Lemma handleManageSecret_cases (a : Application) (e : Env) (r : Request) (st : World) :
  fst (handleManageSecret a e r st) =
  if db_up e
  then match sql_select_viewing_id (secrets st) (PathValue r "managementID") with
       | inl ErrNoRows => notFound r
       | inl _ => oops r
       | inr secretID => managePage a r secretID
       end
  else oops r.
Proof.
  unfold handleManageSecret, db_QueryRow_viewing_id, managePage.
  destruct (db_up e); [|reflexivity].
  destruct (sql_select_viewing_id _ _) as [[]|v]; simpl; try reflexivity.
  destruct (notificationsFromRequest _ _). reflexivity.
Qed.

Lemma body_Redirect (r : Request) (url : string) (code : Z) (w : Response) (b : Body) :
  In b (body (Redirect RedirectNote r url code w)) ->
  In b (body w) \/ b = RedirectNote url code.
Proof.
  destruct w as [[z|] loc ck bd]; unfold Redirect, Write_body, WriteHeader;
    destruct (String.eqb (Method r) "GET"); simpl; intros H;
    try (left; exact H);
    apply in_app_or in H; destruct H as [H|[H|[]]]; auto.
Qed.

Lemma body_SetCookie (c : Cookie) (w : Response) :
  body (SetCookie c w) = body w.
Proof. unfold SetCookie. destruct (status w); reflexivity. Qed.

Lemma body_notificationsFromRequest (r : Request) (w : Response) :
  body (snd (notificationsFromRequest r w)) = body w.
Proof.
  unfold notificationsFromRequest, flash.
  destruct (Cookie_of (Cookies r) _); destruct (Cookie_of (Cookies r) _); simpl;
    rewrite ?body_SetCookie; reflexivity.
Qed.

(** C3. What a manage request answers does not depend on any stored
    ciphertext: two worlds whose tables agree on every column but
    [cipher_text] get the same response.  The response is the not-found
    redirect, the failure redirect, or the manage page built from the
    management identifier, the viewing URL of an active row under that
    identifier and the delete URL; no view page is ever written, and the
    world is left as it was. *)
Theorem manage_never_yields_cipher_text
    (a : Application) (e : Env) (r : Request) (st st' : World) :
  map erase_cipher_text (secrets st) = map erase_cipher_text (secrets st') ->
  fst (handleManageSecret a e r st) = fst (handleManageSecret a e r st')
  /\ (fst (handleManageSecret a e r st) = notFound r
      \/ fst (handleManageSecret a e r st) = oops r
      \/ exists s, In s (secrets st)
           /\ management_id s = PathValue r "managementID"
           /\ deleted_at s = None
           /\ fst (handleManageSecret a e r st) = managePage a r (viewing_id s))
  /\ (forall cipherText n,
        ~ In (pageViewSecret cipherText n) (body (fst (handleManageSecret a e r st))))
  /\ snd (handleManageSecret a e r st) = st.
Proof.
  intros Heq.
  assert (Hshape : fst (handleManageSecret a e r st) = notFound r
      \/ fst (handleManageSecret a e r st) = oops r
      \/ exists s, In s (secrets st)
           /\ management_id s = PathValue r "managementID"
           /\ deleted_at s = None
           /\ fst (handleManageSecret a e r st) = managePage a r (viewing_id s)).
  { rewrite handleManageSecret_cases.
    destruct (db_up e); [|auto].
    destruct (sql_select_viewing_id _ _) as [[]|v] eqn:E; auto.
    right. right. apply sql_select_viewing_id_inr in E.
    destruct E as (s & Hin & Hm & Hd & <-). exists s. auto. }
  split; [|split; [exact Hshape|split]].
  - rewrite !handleManageSecret_cases.
    rewrite <- (sql_select_viewing_id_erase (secrets st)),
            <- (sql_select_viewing_id_erase (secrets st')), Heq.
    reflexivity.
  - intros c n Hin.
    destruct Hshape as [H|[H|(s & _ & _ & _ & H)]]; rewrite H in Hin; clear H.
    + apply body_Redirect in Hin. destruct Hin as [Hin|Hin]; [|discriminate].
      unfold setFlashErr, setFlash in Hin. rewrite body_SetCookie in Hin. destruct Hin.
    + apply body_Redirect in Hin. destruct Hin as [Hin|Hin]; [destruct Hin|discriminate].
    + unfold managePage in Hin.
      pose proof (body_notificationsFromRequest r newResponseWriter) as Hb.
      destruct (notificationsFromRequest r newResponseWriter) as [n' w1].
      simpl in Hb. unfold Render, Write_body, WriteHeader in Hin.
      destruct (status w1); simpl in Hin; rewrite Hb in Hin; simpl in Hin;
        destruct Hin as [Hin|[]]; discriminate.
  - apply handleManageSecret_world.
Qed.

Lemma manage_never_yields_cipher_text_witness :
  fst (handleManageSecret Scenario.app (Scenario.at_time 1200)
         (Scenario.manage Scenario.id2) Scenario.one)
  = fst (handleManageSecret Scenario.app (Scenario.at_time 1200)
           (Scenario.manage Scenario.id2)
           (mkWorld [mkSecret Scenario.id1 Scenario.id2 (Some "x.y.z") 3600 1000
                       None None] [])).
Proof.
  apply (manage_never_yields_cipher_text Scenario.app (Scenario.at_time 1200)
           (Scenario.manage Scenario.id2) Scenario.one
           (mkWorld [mkSecret Scenario.id1 Scenario.id2 (Some "x.y.z") 3600 1000
                       None None] [])).
  reflexivity.
Defined.

(** ** Deleting a secret *)

Lemma handleDeleteSecret_cases (e : Env) (r : Request) (st : World) :
  handleDeleteSecret e r st =
  if db_up e
  then (deleted r,
        mkWorld (sql_update_deleted (secrets st) (now e) deletionReasonUserDeleted
                   (PathValue r "managementID"))
          (entropy st))
  else (oops r, st).
Proof.
  unfold handleDeleteSecret, db_Exec_delete. destruct (db_up e); reflexivity.
Qed.

Lemma sql_update_deleted_twice (t : Table) (n1 n2 : Z) (reason : DeletionReason)
    (m : string) :
  sql_update_deleted (sql_update_deleted t n1 reason m) n2 reason m
  = sql_update_deleted t n2 reason m.
Proof.
  unfold sql_update_deleted. rewrite map_map. apply map_ext. intros s.
  destruct (String.eqb (management_id s) m) eqn:E; simpl; rewrite E; reflexivity.
Qed.

Lemma sql_update_deleted_forget (t : Table) (n1 n2 : Z) (reason : DeletionReason)
    (m : string) :
  map forget_deleted_at (sql_update_deleted t n1 reason m)
  = map forget_deleted_at (sql_update_deleted t n2 reason m).
Proof.
  unfold sql_update_deleted. rewrite !map_map. apply map_ext. intros s.
  destruct (String.eqb (management_id s) m); reflexivity.
Qed.


Lemma sql_update_deleted_unknown (t : Table) (now : Z) (reason : DeletionReason)
    (m : string) :
  existsb (fun s => String.eqb (management_id s) m) t = false ->
  sql_update_deleted t now reason m = t.
Proof.
  rewrite existsb_false_iff. intros H. unfold sql_update_deleted.
  rewrite <- (map_id t) at 2. apply map_ext_in. intros s Hs.
  rewrite (H s Hs). reflexivity.
Qed.

Lemma map_fixes {A : Type} (f : A -> A) (l : list A) :
  map f l = l -> forall x, In x l -> f x = x.
Proof.
  induction l as [|a l IH]; simpl; intros H x Hx; [destruct Hx|].
  injection H as Ha Hl. destruct Hx as [<-|Hx]; [exact Ha|].
  apply IH; assumption.
Qed.

Lemma sql_update_deleted_rows (t : Table) (now : Z) (reason : DeletionReason)
    (m : string) (s : Secret) :
  In s (sql_update_deleted t now reason m) ->
  management_id s = m ->
  cipher_text s = None /\ deleted_at s = Some now /\ deletion_reason s = Some reason.
Proof.
  intros Hs Hm. apply in_sql_update_deleted in Hs. destruct Hs as (s0 & _ & ->).
  destruct (String.eqb (management_id s0) m) eqn:E; simpl in *.
  - repeat split.
  - apply String.eqb_neq in E. contradiction.
Qed.

(** C5, as the code has it.  Two deletes in a row with the same
    management identifier, both reaching the database, both answer with
    the success notification and redirect.  The first leaves every row
    under that identifier with [cipher_text] NULL, the reason
    [user_deleted] and its own time as [deleted_at].  The second leaves
    the table as the first left it, row by row and column by column,
    except that [deleted_at] of the rows under that identifier now holds
    the time of the second call; rows under other identifiers are not
    touched.  So the stored state is unchanged by the second delete
    exactly when no row is under the identifier or both calls read the
    same time. *)
Theorem delete_twice_last_time_wins (e1 e2 : Env) (r : Request) (st : World) :
  db_up e1 = true ->
  db_up e2 = true ->
  let m := PathValue r "managementID" in
  let st1 := snd (handleDeleteSecret e1 r st) in
  let st2 := snd (handleDeleteSecret e2 r st1) in
  fst (handleDeleteSecret e1 r st) = deleted r
  /\ fst (handleDeleteSecret e2 r st1) = deleted r
  /\ secrets st2
     = map (fun s => if String.eqb (management_id s) m
                     then set_deleted_at (now e2) s else s)
         (secrets st1)
  /\ entropy st2 = entropy st1
  /\ (forall s, In s (secrets st1) -> management_id s = m ->
        cipher_text s = None /\ deleted_at s = Some (now e1)
        /\ deletion_reason s = Some deletionReasonUserDeleted)
  /\ map forget_deleted_at (secrets st2) = map forget_deleted_at (secrets st1)
  /\ st2 = snd (handleDeleteSecret e2 r st)
  /\ (st2 = st1
      <-> now e2 = now e1
          \/ existsb (fun s => String.eqb (management_id s) m) (secrets st) = false).
Proof.
  intros H1 H2 m st1 st2. subst st1 st2.
  rewrite !handleDeleteSecret_cases, H1, H2. cbn [fst snd secrets entropy]. fold m.
  assert (Hrows : forall s,
             In s (sql_update_deleted (secrets st) (now e1) deletionReasonUserDeleted m) ->
             management_id s = m ->
             cipher_text s = None /\ deleted_at s = Some (now e1)
             /\ deletion_reason s = Some deletionReasonUserDeleted)
    by (intros s; apply sql_update_deleted_rows).
  assert (Hmap :
            sql_update_deleted
              (sql_update_deleted (secrets st) (now e1) deletionReasonUserDeleted m)
              (now e2) deletionReasonUserDeleted m
            = map (fun s => if String.eqb (management_id s) m
                            then set_deleted_at (now e2) s else s)
                (sql_update_deleted (secrets st) (now e1) deletionReasonUserDeleted m)).
  { unfold sql_update_deleted at 1. apply map_ext_in. intros s Hs.
    destruct (String.eqb (management_id s) m) eqn:E; [|reflexivity].
    apply String.eqb_eq in E. destruct (Hrows s Hs E) as (Hc & _ & Hr).
    unfold set_deleted_at. rewrite Hc, Hr. reflexivity. }
  split; [reflexivity|]. split; [reflexivity|]. split; [exact Hmap|].
  split; [reflexivity|]. split; [exact Hrows|].
  split; [rewrite sql_update_deleted_twice; apply sql_update_deleted_forget|].
  split; [rewrite sql_update_deleted_twice; reflexivity|].
  split.
  - intros Heq.
    destruct (existsb (fun s => String.eqb (management_id s) m) (secrets st)) eqn:Ex;
      [left|right; reflexivity].
    apply existsb_exists in Ex. destruct Ex as (s & Hs & Hm).
    apply (f_equal secrets) in Heq. cbn [secrets] in Heq. rewrite Hmap in Heq.
    assert (Hin : In (mkSecret (viewing_id s) (management_id s) None (ttl s)
                        (created_at s) (Some (now e1)) (Some deletionReasonUserDeleted))
                    (sql_update_deleted (secrets st) (now e1)
                       deletionReasonUserDeleted m)).
    { apply in_sql_update_deleted. exists s. rewrite Hm. auto. }
    pose proof (map_fixes _ _ Heq _ Hin) as Hfix. cbn [management_id] in Hfix.
    rewrite Hm in Hfix. unfold set_deleted_at in Hfix. inversion Hfix. reflexivity.
  - intros [Hn|Hu].
    + rewrite sql_update_deleted_twice, Hn. reflexivity.
    + rewrite !(sql_update_deleted_unknown _ _ _ _ Hu). reflexivity.
Qed.

Lemma delete_twice_last_time_wins_witness :
  secrets (snd (handleDeleteSecret (Scenario.at_time 3000) (Scenario.delete Scenario.id2)
                  (snd (handleDeleteSecret (Scenario.at_time 2000)
                          (Scenario.delete Scenario.id2) Scenario.one))))
  = map (fun s => if String.eqb (management_id s) Scenario.id2
                  then set_deleted_at 3000 s else s)
      (secrets (snd (handleDeleteSecret (Scenario.at_time 2000)
                       (Scenario.delete Scenario.id2) Scenario.one))).
Proof.
  apply (delete_twice_last_time_wins (Scenario.at_time 2000) (Scenario.at_time 3000)
           (Scenario.delete Scenario.id2) Scenario.one); reflexivity.
Defined.

(** C5, as stated, fails: the second of two successful deletes of the
    secret of the scenario, at time 3000, replaces the [deleted_at] the
    first wrote at time 2000, so the stored state changes. *)
Lemma delete_twice_changes_deleted_at :
  let st1 := snd (handleDeleteSecret (Scenario.at_time 2000)
                    (Scenario.delete Scenario.id2) Scenario.one) in
  let st2 := snd (handleDeleteSecret (Scenario.at_time 3000)
                    (Scenario.delete Scenario.id2) st1) in
  fst (handleDeleteSecret (Scenario.at_time 2000) (Scenario.delete Scenario.id2)
         Scenario.one) = deleted (Scenario.delete Scenario.id2)
  /\ fst (handleDeleteSecret (Scenario.at_time 3000) (Scenario.delete Scenario.id2)
            st1) = deleted (Scenario.delete Scenario.id2)
  /\ map deleted_at (secrets st1) = [Some 2000]
  /\ map deleted_at (secrets st2) = [Some 3000]
  /\ st2 <> st1.
Proof.
  repeat split; try reflexivity.
  intros H. apply (f_equal (fun w => map deleted_at (secrets w))) in H.
  vm_compute in H. discriminate.
Qed.


(** ** Creating a secret *)

Lemma secureID_ok (d : Draw) (rest : list Draw) :
  (24 <= List.length d)%nat ->
  secureID (d :: rest) = (Some (Go.hex_EncodeToString (firstn 24 d)), rest).
Proof.
  intros Hd. unfold secureID, rand_Read.
  destruct (Nat.ltb_spec (List.length d) 24) as [Hlt|Hge]; [lia|reflexivity].
Qed.

Lemma secureID_inv (src rest : list Draw) (id : string) :
  secureID src = (Some id, rest) ->
  exists d, src = d :: rest /\ (24 <= List.length d)%nat
            /\ id = Go.hex_EncodeToString (firstn 24 d).
Proof.
  unfold secureID, rand_Read. destruct src as [|d src]; [discriminate|].
  destruct (Nat.ltb_spec (List.length d) 24) as [Hlt|Hge]; [discriminate|].
  intros Heq. inversion Heq. subst. exists d. auto.
Qed.

Lemma secureID_suffix (src rest : list Draw) (res : option string) :
  secureID src = (res, rest) ->
  exists used, src = used ++ rest /\ (List.length used <= 1)%nat.
Proof.
  unfold secureID, rand_Read. destruct src as [|d src].
  - intros H. inversion H. exists []. auto.
  - destruct (List.length d <? 24)%nat; intros H; inversion H; subst;
      exists [d]; auto.
Qed.

Lemma hex_EncodeToString_length (b : list byte) :
  String.length (Go.hex_EncodeToString b) = (2 * List.length b)%nat.
Proof.
  induction b as [|v b IH]; simpl; [reflexivity|]. rewrite IH. lia.
Qed.

Lemma hex_EncodeToString_digits (b : list byte) :
  string_forallb is_hex_digit (Go.hex_EncodeToString b) = true.
Proof.
  induction b as [|v b IH]; [reflexivity|].
  cbn [Go.hex_EncodeToString string_forallb]. rewrite IH.
  destruct v; reflexivity.
Qed.

Lemma secureID_format (src rest : list Draw) (id : string) :
  secureID src = (Some id, rest) ->
  String.length id = 48%nat /\ string_forallb is_hex_digit id = true.
Proof.
  intros H. apply secureID_inv in H. destruct H as (d & _ & Hd & ->).
  rewrite hex_EncodeToString_length, hex_EncodeToString_digits.
  rewrite length_firstn. split; [lia|reflexivity].
Qed.

Lemma strings_Split_length (s : string) (sep : ascii) :
  List.length (Go.strings_Split s sep) = S (Go.strings_Count s sep).
Proof.
  induction s as [|c t IH]; simpl; [reflexivity|].
  destruct (Ascii.eqb c sep); simpl; [rewrite IH; reflexivity|].
  destruct (Go.strings_Split t sep) as [|seg segs]; simpl in *; [discriminate|exact IH].
Qed.

(** The three outcomes of the validation of a create request whose form
    parsed. *)
Lemma handleCreateSecret_bad_envelope (e : Env) (r : Request) (st : World)
    (form : list (string * string)) :
  Form r = Some form ->
  Go.strings_Count (envelope_of form) "." <> 2%nat ->
  handleCreateSecret e r st = (formatInvalid, st).
Proof.
  intros Hf Hc. unfold handleCreateSecret. rewrite Hf. fold (envelope_of form).
  apply Nat.eqb_neq in Hc. rewrite Hc. reflexivity.
Qed.

Lemma handleCreateSecret_bad_ttl (e : Env) (r : Request) (st : World)
    (form : list (string * string)) :
  Form r = Some form ->
  Go.strings_Count (envelope_of form) "." = 2%nat ->
  Go.strconv_Atoi (ttl_of form) = None ->
  handleCreateSecret e r st = (ttlInvalid, st).
Proof.
  intros Hf Hc Ht. unfold handleCreateSecret. rewrite Hf.
  fold (envelope_of form) (ttl_of form). rewrite Hc, Ht. reflexivity.
Qed.

Lemma handleCreateSecret_valid (e : Env) (r : Request) (st : World)
    (form : list (string * string)) (n : Z) :
  Form r = Some form ->
  Go.strings_Count (envelope_of form) "." = 2%nat ->
  Go.strconv_Atoi (ttl_of form) = Some n ->
  handleCreateSecret e r st =
  match secureID (entropy st) with
  | (None, src1) => (internalServerError newResponseWriter, mkWorld (secrets st) src1)
  | (Some viewingID, src1) =>
      match secureID src1 with
      | (None, src2) => (internalServerError newResponseWriter, mkWorld (secrets st) src2)
      | (Some managementID, src2) =>
          match db_Exec_insert e (secrets st) viewingID managementID
                  (envelope_of form) n with
          | inl _ => (internalServerError newResponseWriter, mkWorld (secrets st) src2)
          | inr t => (created r managementID, mkWorld t src2)
          end
      end
  end.
Proof.
  intros Hf Hc Ht. unfold handleCreateSecret. rewrite Hf.
  fold (envelope_of form) (ttl_of form). rewrite Hc, Ht. reflexivity.
Qed.

Lemma handleCreateSecret_ok (e : Env) (r : Request) (st : World)
    (form : list (string * string)) (n : Z) (d1 d2 : Draw) (rest : list Draw) :
  Form r = Some form ->
  Go.strings_Count (envelope_of form) "." = 2%nat ->
  Go.strconv_Atoi (ttl_of form) = Some n ->
  entropy st = d1 :: d2 :: rest ->
  (24 <= List.length d1)%nat ->
  (24 <= List.length d2)%nat ->
  db_up e = true ->
  let viewingID := Go.hex_EncodeToString (firstn 24 d1) in
  let managementID := Go.hex_EncodeToString (firstn 24 d2) in
  unique_violation (secrets st) viewingID managementID = false ->
  handleCreateSecret e r st =
  (created r managementID,
   mkWorld (secrets st ++ [mkSecret viewingID managementID (Some (envelope_of form))
                             n (now e) None None]) rest).
Proof.
  intros Hf Hc Ht He H1 H2 Hup v m Hu.
  rewrite (handleCreateSecret_valid e r st form n Hf Hc Ht), He.
  rewrite (secureID_ok d1 _ H1), (secureID_ok d2 _ H2).
  fold v m. unfold db_Exec_insert, sql_insert. rewrite Hup, Hu. reflexivity.
Qed.

Lemma status_created (r : Request) (m : string) :
  status (created r m) = Some StatusCreated.
Proof.
  unfold created, Redirect, Write_body, WriteHeader.
  destruct (String.eqb (Method r) "GET"); reflexivity.
Qed.

(** A request that passed both validations is answered 201 or 500. *)
Lemma handleCreateSecret_valid_status (e : Env) (r : Request) (st : World)
    (form : list (string * string)) (n : Z) :
  Form r = Some form ->
  Go.strings_Count (envelope_of form) "." = 2%nat ->
  Go.strconv_Atoi (ttl_of form) = Some n ->
  status (fst (handleCreateSecret e r st)) = Some StatusCreated
  \/ status (fst (handleCreateSecret e r st)) = Some StatusInternalServerError.
Proof.
  intros Hf Hc Ht. rewrite (handleCreateSecret_valid e r st form n Hf Hc Ht).
  destruct (secureID (entropy st)) as [[v|] src1]; [|right; reflexivity].
  destruct (secureID src1) as [[m|] src2]; [|right; reflexivity].
  destruct (db_Exec_insert _ _ _ _ _ _); [right; reflexivity|].
  left. apply status_created.
Qed.

(** C8. A create request whose form parsed is turned down for its
    envelope exactly when the envelope does not hold two separators,
    which is when splitting it at the separator does not give three
    segments.  A request turned down gets status 400 with the message
    about the format, and leaves the world, table and entropy source
    alike, as it was. *)
Theorem create_checks_envelope_shape (e : Env) (r : Request) (st : World)
    (form : list (string * string)) :
  Form r = Some form ->
  (fst (handleCreateSecret e r st) = formatInvalid
   <-> Go.strings_Count (envelope_of form) "." <> 2%nat)
  /\ (Go.strings_Count (envelope_of form) "." = 2%nat
      <-> List.length (Go.strings_Split (envelope_of form) ".") = 3%nat)
  /\ (Go.strings_Count (envelope_of form) "." <> 2%nat ->
      handleCreateSecret e r st = (formatInvalid, st)
      /\ status formatInvalid = Some StatusBadRequest
      /\ body formatInvalid = [Text "Secret format is invalid. Please try again."]).
Proof.
  intros Hf. split; [|split].
  - split.
    + intros Hresp Hc.
      destruct (Go.strconv_Atoi (ttl_of form)) as [n|] eqn:Ht.
      * destruct (handleCreateSecret_valid_status e r st form n Hf Hc Ht) as [H|H];
          rewrite Hresp in H; discriminate.
      * rewrite (handleCreateSecret_bad_ttl e r st form Hf Hc Ht) in Hresp.
        discriminate.
    + intros Hc. rewrite (handleCreateSecret_bad_envelope e r st form Hf Hc).
      reflexivity.
  - rewrite strings_Split_length. split; intros H; lia.
  - intros Hc. rewrite (handleCreateSecret_bad_envelope e r st form Hf Hc).
    repeat split.
Qed.

Lemma create_checks_envelope_shape_witness :
  handleCreateSecret (Scenario.at_time 1000) (Scenario.create "abcdef" "3600")
    Scenario.empty
  = (formatInvalid, Scenario.empty).
Proof.
  apply (create_checks_envelope_shape (Scenario.at_time 1000)
           (Scenario.create "abcdef" "3600") Scenario.empty
           [("ttl", "3600"); ("encryptedSecret", "abcdef")] eq_refl).
  vm_compute. discriminate.
Defined.

Lemma strconv_Atoi_range (s : string) (n : Z) :
  Go.strconv_Atoi s = Some n -> Go.minInt <= n <= Go.maxInt.
Proof.
  unfold Go.strconv_Atoi. destruct s as [|c t]; [discriminate|]. cbv zeta.
  destruct (Ascii.eqb c "-" || Ascii.eqb c "+"); [destruct t; [discriminate|]|];
    (destruct (Go.parse_digits _ _) as [k|]; [|discriminate];
     destruct (andb _ _) eqn:E; [|discriminate];
     intros H; inversion H; subst; apply andb_true_iff in E;
     destruct E as [E1 E2]; apply Z.leb_le in E1, E2; split; assumption).
Qed.

Lemma parse_digits_spec (s : string) (acc : Z) :
  Go.parse_digits s acc =
  if string_forallb is_digit s then Some (decimal_value acc s) else None.
Proof.
  revert acc. induction s as [|c t IH]; intros acc; simpl; [reflexivity|].
  unfold Go.digit_of, is_digit. cbv zeta.
  destruct ((48 <=? Z.of_N (N_of_ascii c)) && (Z.of_N (N_of_ascii c) <=? 57));
    simpl; [apply IH|reflexivity].
Qed.

Lemma strconv_Atoi_unfold (c : ascii) (t : string) :
  Go.strconv_Atoi (String c t) =
  let neg := Ascii.eqb c "-" in
  let ds := if neg || Ascii.eqb c "+" then t else String c t in
  match ds with
  | EmptyString => None
  | _ =>
      if string_forallb is_digit ds
      then let v := if neg then - decimal_value 0 ds else decimal_value 0 ds in
           if (Go.minInt <=? v) && (v <=? Go.maxInt) then Some v else None
      else None
  end.
Proof.
  unfold Go.strconv_Atoi. cbv zeta. rewrite parse_digits_spec.
  destruct (Ascii.eqb c "-" || Ascii.eqb c "+"); [destruct t|];
    try reflexivity; destruct (string_forallb _ _); reflexivity.
Qed.

Lemma strconv_Atoi_spec (s : string) (n : Z) :
  Go.strconv_Atoi s = Some n <->
  decimal_int s n /\ Go.minInt <= n <= Go.maxInt.
Proof.
  split.
  - intros H. split; [|apply (strconv_Atoi_range s); exact H].
    destruct s as [|c t]; [discriminate|].
    rewrite strconv_Atoi_unfold in H. cbv zeta in H.
    destruct (Ascii.eqb_spec c "-") as [->|Hm];
      [|destruct (Ascii.eqb_spec c "+") as [->|Hp]]; cbn [orb] in H.
    + destruct t as [|c' t']; [discriminate|].
      destruct (string_forallb is_digit (String c' t')) eqn:Ed; [|discriminate].
      destruct (_ && _) in H; [|discriminate]. inversion H.
      exists "-"%string, (String c' t'). repeat split; auto. discriminate.
    + destruct t as [|c' t']; [discriminate|].
      destruct (string_forallb is_digit (String c' t')) eqn:Ed; [|discriminate].
      destruct (_ && _) in H; [|discriminate]. inversion H.
      exists "+"%string, (String c' t'). repeat split; auto. discriminate.
    + destruct (string_forallb is_digit (String c t)) eqn:Ed; [|discriminate].
      destruct (_ && _) in H; [|discriminate]. inversion H.
      exists ""%string, (String c t). repeat split; auto. discriminate.
  - intros [(sign & digits & Hs & Hsign & Hne & Hd & Hn) Hr].
    assert (Hrange : (Go.minInt <=? n) && (n <=? Go.maxInt) = true).
    { apply andb_true_iff. split; apply Z.leb_le; lia. }
    destruct digits as [|c t]; [congruence|].
    destruct Hsign as [->|[->| ->]]; cbn [append] in Hs;
      subst s; rewrite strconv_Atoi_unfold; cbv zeta.
    + change (n = decimal_value 0 (String c t)) in Hn.
      assert (Hc : is_digit c = true)
        by (cbn [string_forallb] in Hd; apply andb_true_iff in Hd; apply Hd).
      destruct (Ascii.eqb_spec c "-") as [->|Hm]; [discriminate|].
      destruct (Ascii.eqb_spec c "+") as [->|Hp]; [discriminate|].
      cbn [orb]. rewrite Hd, <- Hn, Hrange. reflexivity.
    + change (n = decimal_value 0 (String c t)) in Hn.
      change (Ascii.eqb "+" "-") with false. rewrite Ascii.eqb_refl. cbn [orb].
      rewrite Hd, <- Hn, Hrange. reflexivity.
    + change (n = - decimal_value 0 (String c t)) in Hn.
      rewrite Ascii.eqb_refl. cbn [orb].
      rewrite Hd, <- Hn, Hrange. reflexivity.
Qed.

Lemma zeros_digits (k : nat) :
  string_forallb is_digit (zeros k) = true /\ decimal_value 0 (zeros k) = 0
  /\ String.length (zeros k) = k.
Proof.
  induction k as [|k (Hd & Hv & Hl)]; [repeat split|].
  cbn [zeros string_forallb decimal_value String.length].
  rewrite Hd, Hl. repeat split. exact Hv.
Qed.

Lemma strconv_Atoi_zeros (k : nat) : Go.strconv_Atoi (zeros (S k)) = Some 0.
Proof.
  apply strconv_Atoi_spec. destruct (zeros_digits (S k)) as (Hd & Hv & _).
  split; [|unfold Go.minInt, Go.maxInt; lia].
  exists EmptyString, (zeros (S k)). repeat split.
  - left. reflexivity.
  - discriminate.
  - exact Hd.
  - simpl String.eqb. cbv iota. symmetry. exact Hv.
Qed.

Lemma zeros_not_in (L : list string) :
  ~ In (zeros (S (list_max (map String.length L)))) L.
Proof.
  intros Hin.
  assert (Hle : Forall (fun k => (k <= list_max (map String.length L))%nat)
                  (map String.length L))
    by (apply list_max_le; lia).
  rewrite Forall_forall in Hle.
  specialize (Hle _ (in_map String.length _ _ Hin)).
  destruct (zeros_digits (S (list_max (map String.length L)))) as (_ & _ & Hl).
  rewrite Hl in Hle. lia.
Qed.

(** C7, as the code has it.  The only check of the TTL of a create
    request is that it writes, in decimal, an integer that fits the
    platform [int].  A request whose form parsed and whose TTL does not
    is answered with status 400 and a message, and leaves the world as it
    was, whether or not its envelope is well formed; for a well-formed
    envelope the answer is the message about the TTL exactly in that
    case.  Every TTL that does write such an integer, zero and the
    negative ones included, is accepted: with a well-formed envelope, two
    draws of at least 24 bytes, the database up and both identifiers
    unused, the request is answered 201 and the integer is stored as the
    [ttl] of the new row. *)
Theorem create_checks_ttl (e : Env) (r : Request) (st : World)
    (form : list (string * string)) :
  Form r = Some form ->
  (~ ttl_parses (ttl_of form) ->
   status (fst (handleCreateSecret e r st)) = Some StatusBadRequest
   /\ (exists msg, body (fst (handleCreateSecret e r st)) = [Text msg])
   /\ snd (handleCreateSecret e r st) = st)
  /\ (Go.strings_Count (envelope_of form) "." = 2%nat ->
      (fst (handleCreateSecret e r st) = ttlInvalid <-> ~ ttl_parses (ttl_of form)))
  /\ (forall n d1 d2 rest,
        decimal_int (ttl_of form) n ->
        Go.minInt <= n <= Go.maxInt ->
        Go.strings_Count (envelope_of form) "." = 2%nat ->
        entropy st = d1 :: d2 :: rest ->
        (24 <= List.length d1)%nat ->
        (24 <= List.length d2)%nat ->
        db_up e = true ->
        unique_violation (secrets st) (Go.hex_EncodeToString (firstn 24 d1))
          (Go.hex_EncodeToString (firstn 24 d2)) = false ->
        status (fst (handleCreateSecret e r st)) = Some StatusCreated
        /\ secrets (snd (handleCreateSecret e r st))
           = secrets st ++
             [mkSecret (Go.hex_EncodeToString (firstn 24 d1))
                (Go.hex_EncodeToString (firstn 24 d2))
                (Some (envelope_of form)) n (now e) None None]).
Proof.
  intros Hf.
  assert (Hnone : ~ ttl_parses (ttl_of form) -> Go.strconv_Atoi (ttl_of form) = None).
  { intros H. destruct (Go.strconv_Atoi (ttl_of form)) as [n|] eqn:E; [|reflexivity].
    destruct H. exists n. apply strconv_Atoi_spec. exact E. }
  split; [|split].
  - intros Hna. apply Hnone in Hna.
    destruct (Nat.eq_dec (Go.strings_Count (envelope_of form) ".") 2) as [Hc|Hc].
    + rewrite (handleCreateSecret_bad_ttl e r st form Hf Hc Hna).
      repeat split. eexists. reflexivity.
    + rewrite (handleCreateSecret_bad_envelope e r st form Hf Hc).
      repeat split. eexists. reflexivity.
  - intros Hc. split.
    + intros Hresp [n Hn]. apply strconv_Atoi_spec in Hn.
      destruct (handleCreateSecret_valid_status e r st form n Hf Hc Hn) as [H|H];
        rewrite Hresp in H; discriminate.
    + intros Hna. apply Hnone in Hna.
      rewrite (handleCreateSecret_bad_ttl e r st form Hf Hc Hna). reflexivity.
  - intros n d1 d2 rest Hd Hr Hc He H1 H2 Hup Hu.
    assert (Ht : Go.strconv_Atoi (ttl_of form) = Some n)
      by (apply strconv_Atoi_spec; split; assumption).
    rewrite (handleCreateSecret_ok e r st form n d1 d2 rest Hf Hc Ht He H1 H2 Hup Hu).
    cbn [fst snd secrets]. rewrite status_created. split; reflexivity.
Qed.

Lemma create_checks_ttl_witness :
  status (fst (handleCreateSecret (Scenario.at_time 1000)
                 (Scenario.create "abc.def.ghi" "1h") Scenario.empty))
  = Some StatusBadRequest
  /\ (exists msg, body (fst (handleCreateSecret (Scenario.at_time 1000)
                              (Scenario.create "abc.def.ghi" "1h") Scenario.empty))
                  = [Text msg])
  /\ snd (handleCreateSecret (Scenario.at_time 1000)
            (Scenario.create "abc.def.ghi" "1h") Scenario.empty)
     = Scenario.empty.
Proof.
  apply (create_checks_ttl (Scenario.at_time 1000)
           (Scenario.create "abc.def.ghi" "1h") Scenario.empty
           [("ttl", "1h"); ("encryptedSecret", "abc.def.ghi")] eq_refl).
  intros [n Hn]. apply strconv_Atoi_spec in Hn. discriminate.
Defined.

(** C7, as stated, fails: no set of accepted values is checked.  Creates
    with the TTL [-1], [0] and [9223372036854775807] are answered 201 and
    store those numbers, and whatever finite list of TTL values one
    draws up, a TTL outside the list is answered 201 too. *)
Lemma create_accepts_any_integer_ttl :
  (status (fst (handleCreateSecret (Scenario.at_time 1000)
                  (Scenario.create "abc.def.ghi" "-1") Scenario.empty))
   = Some StatusCreated
   /\ map ttl (secrets (snd (handleCreateSecret (Scenario.at_time 1000)
                               (Scenario.create "abc.def.ghi" "-1") Scenario.empty)))
      = [-1])
  /\ (status (fst (handleCreateSecret (Scenario.at_time 1000)
                     (Scenario.create "abc.def.ghi" "0") Scenario.empty))
      = Some StatusCreated
      /\ map ttl (secrets (snd (handleCreateSecret (Scenario.at_time 1000)
                                  (Scenario.create "abc.def.ghi" "0") Scenario.empty)))
         = [0])
  /\ (status (fst (handleCreateSecret (Scenario.at_time 1000)
                     (Scenario.create "abc.def.ghi" "9223372036854775807")
                     Scenario.empty))
      = Some StatusCreated
      /\ map ttl (secrets (snd (handleCreateSecret (Scenario.at_time 1000)
                                  (Scenario.create "abc.def.ghi" "9223372036854775807")
                                  Scenario.empty)))
         = [9223372036854775807])
  /\ (forall accepted : list string,
        exists s,
          ~ In s accepted
          /\ status (fst (handleCreateSecret (Scenario.at_time 1000)
                            (Scenario.create "abc.def.ghi" s) Scenario.empty))
             = Some StatusCreated).
Proof.
  split; [split; reflexivity|]. split; [split; reflexivity|].
  split; [split; reflexivity|].
  intros L. exists (zeros (S (list_max (map String.length L)))).
  split; [apply zeros_not_in|].
  rewrite (handleCreateSecret_ok (Scenario.at_time 1000)
             (Scenario.create "abc.def.ghi" (zeros (S (list_max (map String.length L)))))
             Scenario.empty
             [("ttl", zeros (S (list_max (map String.length L))));
              ("encryptedSecret", "abc.def.ghi")]%string
             0 Scenario.draw1 Scenario.draw2 [Scenario.draw3; Scenario.draw4]).
  - apply status_created.
  - reflexivity.
  - reflexivity.
  - apply strconv_Atoi_zeros.
  - reflexivity.
  - vm_compute. lia.
  - vm_compute. lia.
  - reflexivity.
  - reflexivity.
Qed.

Lemma find_app_none {A : Type} (f : A -> bool) (l l' : list A) :
  find f l = None -> find f (l ++ l') = find f l'.
Proof.
  induction l as [|x l IH]; simpl; [reflexivity|].
  destruct (f x); [discriminate|exact IH].
Qed.

Lemma sql_select_viewing_id_new (t : Table) (v m c : string) (n now : Z) :
  unique_violation t v m = false ->
  sql_select_viewing_id (t ++ [mkSecret v m (Some c) n now None None]) m = inr v.
Proof.
  intros Hu. rewrite unique_violation_false in Hu.
  unfold sql_select_viewing_id. rewrite find_app_none.
  - simpl. rewrite String.eqb_refl. reflexivity.
  - apply find_none_intro. intros s Hs. destruct (Hu s Hs) as [_ Hm].
    apply String.eqb_neq in Hm. rewrite Hm. reflexivity.
Qed.

Lemma sql_select_cipher_text_new (t : Table) (v m c : string) (n now : Z) :
  unique_violation t v m = false ->
  sql_select_cipher_text (t ++ [mkSecret v m (Some c) n now None None]) v = inr c.
Proof.
  intros Hu. rewrite unique_violation_false in Hu.
  unfold sql_select_cipher_text. rewrite find_app_none.
  - simpl. rewrite String.eqb_refl. reflexivity.
  - apply find_none_intro. intros s Hs. destruct (Hu s Hs) as [Hv _].
    apply String.eqb_neq in Hv. rewrite Hv. reflexivity.
Qed.

Lemma handleGetSecret_found (e : Env) (r : Request) (st : World) (c : string) :
  db_up e = true ->
  sql_select_cipher_text (secrets st) (PathValue r "viewingID") = inr c ->
  handleGetSecret e r st = (viewPage r c, st).
Proof.
  intros Hup H. unfold handleGetSecret, db_QueryRow_cipher_text, viewPage.
  rewrite Hup, H. simpl. destruct (notificationsFromRequest _ _). reflexivity.
Qed.

Lemma status_notificationsFromRequest (r : Request) :
  status (snd (notificationsFromRequest r newResponseWriter)) = None.
Proof.
  unfold notificationsFromRequest, flash.
  destruct (Cookie_of (Cookies r) _); destruct (Cookie_of (Cookies r) _); reflexivity.
Qed.

Lemma rendered (r : Request) (page : notifications -> Body) :
  let resp := (let (n, w1) := notificationsFromRequest r newResponseWriter in
               Render (page n) w1) in
  status resp = Some 200
  /\ body resp = [page (fst (notificationsFromRequest r newResponseWriter))].
Proof.
  pose proof (status_notificationsFromRequest r) as Hs.
  pose proof (body_notificationsFromRequest r newResponseWriter) as Hb.
  destruct (notificationsFromRequest r newResponseWriter) as [n w1]. simpl in *.
  unfold Render, Write_body, WriteHeader. rewrite Hs. simpl. rewrite Hb.
  split; reflexivity.
Qed.

Lemma location_created (r : Request) (m : string) :
  location (created r m) = Some ("/manage-secret/" ++ m)%string.
Proof.
  unfold created, Redirect, Write_body, WriteHeader.
  destruct (String.eqb (Method r) "GET"); reflexivity.
Qed.

(** C4. Round trip.  From any world, a create request with the envelope
    ["abc.def.ghi"] and the TTL ["3600"], served while the entropy source
    delivers two draws of at least 24 bytes, the database is up and the
    two identifiers drawn are not in the table yet, is answered 201 with
    the location [/manage-secret/<managementID>], the management
    identifier being 48 lower-case hexadecimal digits.  A manage request
    with that identifier then renders the manage page with the viewing
    URL [<baseURL>/secret/<viewingID>], and a view request with that
    viewing identifier renders the view page with exactly
    ["abc.def.ghi"]. *)
Theorem create_manage_view_round_trip
    (a : Application) (ec : Env) (rc : Request) (st0 : World)
    (form : list (string * string)) (d1 d2 : Draw) (rest : list Draw)
    (em : Env) (rm : Request) (ev : Env) (rv : Request) :
  Form rc = Some form ->
  envelope_of form = "abc.def.ghi" ->
  ttl_of form = "3600" ->
  entropy st0 = d1 :: d2 :: rest ->
  (24 <= List.length d1)%nat ->
  (24 <= List.length d2)%nat ->
  db_up ec = true ->
  let viewingID := Go.hex_EncodeToString (firstn 24 d1) in
  let managementID := Go.hex_EncodeToString (firstn 24 d2) in
  unique_violation (secrets st0) viewingID managementID = false ->
  PathValue rm "managementID" = managementID ->
  db_up em = true ->
  PathValue rv "viewingID" = viewingID ->
  db_up ev = true ->
  let st1 := snd (handleCreateSecret ec rc st0) in
  let created_resp := fst (handleCreateSecret ec rc st0) in
  let manage_resp := fst (handleManageSecret a em rm st1) in
  let view_resp := fst (handleGetSecret ev rv st1) in
  (status created_resp = Some StatusCreated
   /\ location created_resp = Some ("/manage-secret/" ++ managementID)%string
   /\ String.length managementID = 48%nat
   /\ string_forallb is_hex_digit managementID = true)
  /\ (status manage_resp = Some 200
      /\ body manage_resp =
         [pageManageSecret managementID
            (baseURL a ++ "/secret/" ++ viewingID)%string
            (baseURL a ++ "/manage-secret/" ++ managementID ++ "/delete")%string
            (fst (notificationsFromRequest rm newResponseWriter))])
  /\ (status view_resp = Some 200
      /\ body view_resp =
         [pageViewSecret "abc.def.ghi"
            (fst (notificationsFromRequest rv newResponseWriter))]).
Proof.
  intros Hf Henv Httl He H1 H2 Hup v m Hu Hrm Hem Hrv Hev st1 cr mr vr.
  assert (Hc : Go.strings_Count (envelope_of form) "." = 2%nat)
    by (rewrite Henv; reflexivity).
  assert (Ht : Go.strconv_Atoi (ttl_of form) = Some 3600)
    by (rewrite Httl; reflexivity).
  pose proof (handleCreateSecret_ok ec rc st0 form 3600 d1 d2 rest
                Hf Hc Ht He H1 H2 Hup Hu) as Hcreate.
  fold v m in Hcreate. rewrite Henv in Hcreate.
  subst st1 cr mr vr. rewrite Hcreate. simpl fst. simpl snd.
  split; [|split].
  - rewrite status_created, location_created.
    unfold m. rewrite hex_EncodeToString_length, hex_EncodeToString_digits.
    rewrite length_firstn. repeat split. lia.
  - rewrite handleManageSecret_cases, Hem. simpl secrets. rewrite Hrm.
    rewrite (sql_select_viewing_id_new _ _ _ _ _ _ Hu).
    unfold managePage. rewrite Hrm.
    apply (rendered rm (fun n => pageManageSecret m _ _ n)).
  - rewrite (handleGetSecret_found ev rv _ "abc.def.ghi" Hev).
    + apply (rendered rv (fun n => pageViewSecret "abc.def.ghi" n)).
    + simpl secrets. rewrite Hrv. apply sql_select_cipher_text_new. exact Hu.
Qed.

Lemma create_manage_view_round_trip_witness :
  body (fst (handleGetSecret (Scenario.at_time 1200) (Scenario.view Scenario.id1)
               Scenario.one))
  = [pageViewSecret "abc.def.ghi" (mkNotifications "" "")].
Proof.
  apply (create_manage_view_round_trip Scenario.app (Scenario.at_time 1000)
           (Scenario.create "abc.def.ghi" "3600") Scenario.empty
           [("ttl", "3600"); ("encryptedSecret", "abc.def.ghi")]
           Scenario.draw1 Scenario.draw2 [Scenario.draw3; Scenario.draw4]
           (Scenario.at_time 1100) (Scenario.manage Scenario.id2)
           (Scenario.at_time 1200) (Scenario.view Scenario.id1));
    try reflexivity; vm_compute; lia.
Defined.

(** C10. The check of the envelope counts separators and asks nothing of
    the segments.  A create request whose envelope holds exactly two
    ['.'], served with a TTL that parses, two draws of at least 24 bytes,
    the database up and both identifiers unused, is answered 201 and
    appends a row whose [cipher_text] is that envelope.  The envelopes
    [".."] and ["a..b"] are of that kind, with three and with one empty
    segment. *)
Theorem create_stores_envelope_with_empty_segments
    (e : Env) (r : Request) (st : World) (form : list (string * string))
    (n : Z) (d1 d2 : Draw) (rest : list Draw) :
  Form r = Some form ->
  Go.strings_Count (envelope_of form) "." = 2%nat ->
  Go.strconv_Atoi (ttl_of form) = Some n ->
  entropy st = d1 :: d2 :: rest ->
  (24 <= List.length d1)%nat ->
  (24 <= List.length d2)%nat ->
  db_up e = true ->
  let viewingID := Go.hex_EncodeToString (firstn 24 d1) in
  let managementID := Go.hex_EncodeToString (firstn 24 d2) in
  unique_violation (secrets st) viewingID managementID = false ->
  (status (fst (handleCreateSecret e r st)) = Some StatusCreated
   /\ secrets (snd (handleCreateSecret e r st)) =
      secrets st ++ [mkSecret viewingID managementID (Some (envelope_of form))
                       n (now e) None None])
  /\ (Go.strings_Count ".." "." = 2%nat
      /\ Go.strings_Split ".." "." = [""; ""; ""]%string)
  /\ (Go.strings_Count "a..b" "." = 2%nat
      /\ Go.strings_Split "a..b" "." = ["a"; ""; "b"]%string).
Proof.
  intros Hf Hc Ht He H1 H2 Hup v m Hu.
  rewrite (handleCreateSecret_ok e r st form n d1 d2 rest Hf Hc Ht He H1 H2 Hup Hu).
  simpl fst. simpl snd. rewrite status_created. repeat split.
Qed.

Lemma create_stores_envelope_with_empty_segments_witness :
  status (fst (handleCreateSecret (Scenario.at_time 1000)
                 (Scenario.create ".." "3600") Scenario.empty))
  = Some StatusCreated
  /\ secrets (snd (handleCreateSecret (Scenario.at_time 1000)
                     (Scenario.create ".." "3600") Scenario.empty))
     = [mkSecret Scenario.id1 Scenario.id2 (Some "..") 3600 1000 None None].
Proof.
  apply (create_stores_envelope_with_empty_segments (Scenario.at_time 1000)
           (Scenario.create ".." "3600") Scenario.empty
           [("ttl", "3600"); ("encryptedSecret", "..")] 3600
           Scenario.draw1 Scenario.draw2 [Scenario.draw3; Scenario.draw4]);
    try reflexivity; vm_compute; lia.
Defined.

(** The draws a create consumes. *)
Lemma handleCreateSecret_draws (e : Env) (r : Request) (st : World) :
  exists used,
    entropy st = used ++ entropy (snd (handleCreateSecret e r st))
    /\ (List.length used <= 2)%nat.
Proof.
  unfold handleCreateSecret.
  destruct (Form r) as [form|]; [|exists []; auto].
  destruct (negb _); [exists []; auto|].
  destruct (Go.strconv_Atoi _) as [n|]; [|exists []; auto].
  destruct (secureID (entropy st)) as [res1 src1] eqn:E1.
  destruct (secureID_suffix _ _ _ E1) as (u1 & Hu1 & Hl1).
  destruct res1 as [v|]; [|exists u1; simpl; split; [exact Hu1|lia]].
  destruct (secureID src1) as [res2 src2] eqn:E2.
  destruct (secureID_suffix _ _ _ E2) as (u2 & Hu2 & Hl2).
  assert (Hboth : entropy st = (u1 ++ u2) ++ src2)
    by (rewrite <- app_assoc, <- Hu2; exact Hu1).
  assert (Hlen : (List.length (u1 ++ u2) <= 2)%nat)
    by (rewrite length_app; lia).
  destruct res2 as [m|]; [|exists (u1 ++ u2); simpl; auto].
  destruct (db_Exec_insert _ _ _ _ _ _); exists (u1 ++ u2); simpl; auto.
Qed.

(** C9, as the code has it.  A create draws each identifier once and runs
    its INSERT once.  When the store turns the INSERT down, for a
    duplicate identifier as for any other reason, the request is answered
    500 at once: the table is left as it was and exactly the two draws
    made before the INSERT are gone from the entropy source.  No create,
    whatever its outcome, takes more than two draws. *)
Theorem create_never_retries
    (e : Env) (r : Request) (st : World) (form : list (string * string))
    (n : Z) (viewingID managementID : string) (src1 src2 : list Draw) (err : error) :
  Form r = Some form ->
  Go.strings_Count (envelope_of form) "." = 2%nat ->
  Go.strconv_Atoi (ttl_of form) = Some n ->
  secureID (entropy st) = (Some viewingID, src1) ->
  secureID src1 = (Some managementID, src2) ->
  db_Exec_insert e (secrets st) viewingID managementID (envelope_of form) n = inl err ->
  handleCreateSecret e r st
  = (internalServerError newResponseWriter, mkWorld (secrets st) src2)
  /\ status (internalServerError newResponseWriter) = Some StatusInternalServerError
  /\ (exists d1 d2, entropy st = d1 :: d2 :: src2)
  /\ (forall e' r' st', exists used,
        entropy st' = used ++ entropy (snd (handleCreateSecret e' r' st'))
        /\ (List.length used <= 2)%nat).
Proof.
  intros Hf Hc Ht Hv Hm Hins.
  rewrite (handleCreateSecret_valid e r st form n Hf Hc Ht), Hv, Hm, Hins.
  repeat split.
  - apply secureID_inv in Hv. destruct Hv as (d1 & Hd1 & _).
    apply secureID_inv in Hm. destruct Hm as (d2 & Hd2 & _).
    exists d1, d2. rewrite Hd1, Hd2. reflexivity.
  - intros e' r' st'. apply handleCreateSecret_draws.
Qed.

Lemma create_never_retries_witness :
  handleCreateSecret (Scenario.at_time 5000) (Scenario.create "abc.def.ghi" "3600")
    (mkWorld (secrets Scenario.one)
       [Scenario.draw1; Scenario.draw4; Scenario.draw3; Scenario.draw4])
  = (internalServerError newResponseWriter,
     mkWorld (secrets Scenario.one) [Scenario.draw3; Scenario.draw4]).
Proof.
  apply (create_never_retries (Scenario.at_time 5000)
           (Scenario.create "abc.def.ghi" "3600")
           (mkWorld (secrets Scenario.one)
              [Scenario.draw1; Scenario.draw4; Scenario.draw3; Scenario.draw4])
           [("ttl", "3600"); ("encryptedSecret", "abc.def.ghi")] 3600
           Scenario.id1 "a4a4a4a4a4a4a4a4a4a4a4a4a4a4a4a4a4a4a4a4a4a4a4a4"
           [Scenario.draw4; Scenario.draw3; Scenario.draw4]
           [Scenario.draw3; Scenario.draw4] ErrConstraint);
    reflexivity.
Defined.

(** C9, as stated, fails: in a world that holds the secret of the
    scenario, a create whose first draw repeats that secret's viewing
    identifier has its INSERT turned down for the duplicate and is
    answered 500 with two fresh draws left unread in the entropy source,
    draws with which the same request succeeds. *)
Lemma create_does_not_retry_on_duplicate :
  let st := mkWorld (secrets Scenario.one)
              [Scenario.draw1; Scenario.draw4; Scenario.draw3; Scenario.draw4] in
  let e := Scenario.at_time 5000 in
  let r := Scenario.create "abc.def.ghi" "3600" in
  sql_insert (secrets st) Scenario.id1
    "a4a4a4a4a4a4a4a4a4a4a4a4a4a4a4a4a4a4a4a4a4a4a4a4" "abc.def.ghi" 3600 5000
  = inl ErrConstraint
  /\ status (fst (handleCreateSecret e r st)) = Some StatusInternalServerError
  /\ secrets (snd (handleCreateSecret e r st)) = secrets st
  /\ entropy (snd (handleCreateSecret e r st)) = [Scenario.draw3; Scenario.draw4]
  /\ status (fst (handleCreateSecret e r (snd (handleCreateSecret e r st))))
     = Some StatusCreated.
Proof. repeat split. Qed.

(** ** The outcomes of a create *)

(** Every create ends in one of three ways: turned down with a message,
    failed, or stored. *)
Lemma handleCreateSecret_inversion (e : Env) (r : Request) (st : World) :
  (exists msg, handleCreateSecret e r st = (badRequest msg newResponseWriter, st))
  \/ (exists src, handleCreateSecret e r st
                  = (internalServerError newResponseWriter, mkWorld (secrets st) src))
  \/ (exists form n d1 d2 rest,
        Form r = Some form
        /\ Go.strings_Count (envelope_of form) "." = 2%nat
        /\ Go.strconv_Atoi (ttl_of form) = Some n
        /\ entropy st = d1 :: d2 :: rest
        /\ (24 <= List.length d1)%nat /\ (24 <= List.length d2)%nat
        /\ db_up e = true
        /\ unique_violation (secrets st) (Go.hex_EncodeToString (firstn 24 d1))
             (Go.hex_EncodeToString (firstn 24 d2)) = false
        /\ handleCreateSecret e r st
           = (created r (Go.hex_EncodeToString (firstn 24 d2)),
              mkWorld (secrets st ++
                         [mkSecret (Go.hex_EncodeToString (firstn 24 d1))
                            (Go.hex_EncodeToString (firstn 24 d2))
                            (Some (envelope_of form)) n (now e) None None])
                rest)).
Proof.
  destruct (Form r) as [form|] eqn:Hf.
  2:{ left. eexists. unfold handleCreateSecret. rewrite Hf. reflexivity. }
  destruct (Nat.eq_dec (Go.strings_Count (envelope_of form) ".") 2) as [Hc|Hc].
  2:{ left. eexists. apply (handleCreateSecret_bad_envelope e r st form Hf Hc). }
  destruct (Go.strconv_Atoi (ttl_of form)) as [n|] eqn:Ht.
  2:{ left. eexists. apply (handleCreateSecret_bad_ttl e r st form Hf Hc Ht). }
  rewrite (handleCreateSecret_valid e r st form n Hf Hc Ht).
  destruct (secureID (entropy st)) as [[v|] src1] eqn:E1; [|right; left; eauto].
  destruct (secureID src1) as [[m|] src2] eqn:E2; [|right; left; eauto].
  destruct (db_Exec_insert _ _ _ _ _ _) as [err|t'] eqn:E3; [right; left; eauto|].
  right. right.
  apply secureID_inv in E1. destruct E1 as (d1 & H1 & Hl1 & ->).
  apply secureID_inv in E2. destruct E2 as (d2 & H2 & Hl2 & ->).
  apply db_Exec_insert_inr in E3. destruct E3 as (Hup & Hu & ->).
  exists form, n, d1, d2, src2. rewrite H1, H2. repeat split; auto.
Qed.

(** X1. A create is answered 201 exactly when it appended a row.  Any
    other answer is 400 or 500 and leaves the table as it was, and a 400
    leaves the entropy source untouched too.  The row appended is alone
    at the end of the table, carries the envelope of the request
    unchanged, no mark of deletion and the time of the request, and the
    response is the redirect to the manage page of its management
    identifier. *)
Theorem create_answers_201_iff_row_added (e : Env) (r : Request) (st : World) :
  let resp := fst (handleCreateSecret e r st) in
  let st' := snd (handleCreateSecret e r st) in
  (status resp = Some StatusCreated
   <-> List.length (secrets st') = S (List.length (secrets st)))
  /\ (status resp = Some StatusCreated
      \/ (status resp = Some StatusBadRequest /\ st' = st)
      \/ (status resp = Some StatusInternalServerError /\ secrets st' = secrets st))
  /\ (status resp = Some StatusCreated ->
      exists s form,
        Form r = Some form
        /\ secrets st' = secrets st ++ [s]
        /\ cipher_text s = Some (envelope_of form)
        /\ deleted_at s = None /\ deletion_reason s = None
        /\ created_at s = now e
        /\ Go.strconv_Atoi (ttl_of form) = Some (ttl s)
        /\ resp = created r (management_id s)).
Proof.
  intros resp st'. subst resp st'.
  destruct (handleCreateSecret_inversion e r st)
    as [[msg H]|[[src H]|(form & n & d1 & d2 & rest & Hf & Hc & Ht & He & H1 & H2
                            & Hup & Hu & H)]];
    rewrite H; cbn [fst snd secrets].
  - split; [|split].
    + split; [discriminate|intros Hl; lia].
    + right. left. split; reflexivity.
    + discriminate.
  - split; [|split].
    + split; [discriminate|intros Hl; lia].
    + right. right. split; reflexivity.
    + discriminate.
  - split; [|split].
    + rewrite status_created, length_app. simpl. split; [intros _; lia|reflexivity].
    + left. apply status_created.
    + intros _. eexists. exists form. repeat split; eauto.
Qed.

(** ** What the handlers keep of the table *)

Lemma row_evolves_refl (s : Secret) : row_evolves s s.
Proof. unfold row_evolves. repeat split; auto. Qed.

Lemma row_evolves_trans (s1 s2 s3 : Secret) :
  row_evolves s1 s2 -> row_evolves s2 s3 -> row_evolves s1 s3.
Proof.
  intros (Hv & Hm & Ht & Hc & Hx & Hd) (Hv' & Hm' & Ht' & Hc' & Hx' & Hd').
  unfold row_evolves. repeat split; try congruence.
  - destruct Hx' as [Hx'|Hx']; [rewrite Hx'; exact Hx|right; exact Hx'].
  - auto.
Qed.

Lemma Forall2_row_evolves_refl (t : Table) : Forall2 row_evolves t t.
Proof. induction t; constructor; [apply row_evolves_refl|assumption]. Qed.

Lemma Forall2_row_evolves_trans (t1 t2 t3 : Table) :
  Forall2 row_evolves t1 t2 -> Forall2 row_evolves t2 t3 -> Forall2 row_evolves t1 t3.
Proof.
  intros H12. revert t3. induction H12 as [|s1 s2 t1 t2 Hs H12 IH]; intros t3 H23.
  - inversion H23. constructor.
  - inversion H23 as [|s2' s3 t2' t3' Hs' H23']. subst. constructor.
    + apply (row_evolves_trans s1 s2 s3); assumption.
    + apply IH. assumption.
Qed.

Lemma history_trans (t1 t2 t3 : Table) :
  history t1 t2 -> history t2 t3 -> history t1 t3.
Proof.
  intros (k1 & a1 & -> & H1) (k2 & a2 & -> & H2).
  apply Forall2_app_inv_l in H2. destruct H2 as (k2a & k2b & Ha & Hb & ->).
  exists k2a, (k2b ++ a2). split; [rewrite app_assoc; reflexivity|].
  apply (Forall2_row_evolves_trans t1 k1 k2a); assumption.
Qed.

Lemma history_step (t t' : Table) : table_step t t' -> history t t'.
Proof.
  intros [|v m c n now Hu|now m].
  - exists t, []. split; [rewrite app_nil_r; reflexivity|apply Forall2_row_evolves_refl].
  - eexists t, _. split; [reflexivity|apply Forall2_row_evolves_refl].
  - eexists _, []. split; [rewrite app_nil_r; reflexivity|].
    unfold sql_update_deleted. induction t as [|s t IH]; simpl; constructor; [|exact IH].
    destruct (String.eqb (management_id s) m); [|apply row_evolves_refl].
    unfold row_evolves. simpl. repeat split; auto. discriminate.
Qed.

Lemma Forall2_nth_error {A B : Type} (R : A -> B -> Prop) (l : list A) (l' : list B)
    (i : nat) (x : A) :
  Forall2 R l l' -> nth_error l i = Some x ->
  exists y, nth_error l' i = Some y /\ R x y.
Proof.
  intros H. revert i. induction H as [|a b l l' Hab H IH]; intros i Hi.
  - destruct i; discriminate.
  - destruct i as [|i]; simpl in *.
    + inversion Hi. subst. eauto.
    + apply IH. exact Hi.
Qed.

(** X2. Whatever requests are served, the table only grows at its end
    and no row is lost or moved: the row at each position keeps its
    viewing identifier, management identifier, TTL and time of creation;
    its ciphertext is what it was or NULL; and once it has a time of
    deletion it has one for ever. *)
Theorem rows_are_kept (a : Application) (calls : list (Call * Env * Request))
    (st : World) :
  history (secrets st) (secrets (run a calls st))
  /\ (forall i s, nth_error (secrets st) i = Some s ->
        exists s', nth_error (secrets (run a calls st)) i = Some s'
                   /\ row_evolves s s').
Proof.
  assert (H : history (secrets st) (secrets (run a calls st))).
  { apply (run_invariant (history (secrets st))).
    - intros t t' Hstep Ht. apply (history_trans _ t); [exact Ht|].
      apply history_step. exact Hstep.
    - exists (secrets st), []. split; [rewrite app_nil_r; reflexivity|].
      apply Forall2_row_evolves_refl. }
  split; [exact H|].
  intros i s Hi. destruct H as (kept & added & Heq & HF).
  destruct (Forall2_nth_error _ _ _ _ _ HF Hi) as (s' & Hs' & Hev).
  exists s'. split; [|exact Hev]. rewrite Heq.
  rewrite nth_error_app1; [exact Hs'|].
  apply nth_error_Some. rewrite Hs'. discriminate.
Qed.

Lemma map_id_sql_update_deleted {A : Type} (f : Secret -> A) (t : Table) (now : Z)
    (reason : DeletionReason) (m : string) :
  (forall s, f (mkSecret (viewing_id s) (management_id s) None (ttl s)
                  (created_at s) (Some now) (Some reason)) = f s) ->
  map f (sql_update_deleted t now reason m) = map f t.
Proof.
  intros Hf. unfold sql_update_deleted. rewrite map_map. apply map_ext.
  intros s. destruct (String.eqb (management_id s) m); [apply Hf|reflexivity].
Qed.

Lemma not_in_map_eqb (t : Table) (f : Secret -> string) (x : string) :
  existsb (fun s => String.eqb (f s) x) t = false -> ~ In x (map f t).
Proof.
  rewrite existsb_false_iff. intros H Hin. apply in_map_iff in Hin.
  destruct Hin as (s & Hs & Hin). apply H in Hin. rewrite Hs, String.eqb_refl in Hin.
  discriminate.
Qed.

Lemma is_identifier_hex (d : Draw) :
  (24 <= List.length d)%nat -> is_identifier (Go.hex_EncodeToString (firstn 24 d)).
Proof.
  intros H. unfold is_identifier.
  rewrite hex_EncodeToString_length, hex_EncodeToString_digits, length_firstn.
  split; [lia|reflexivity].
Qed.

Lemma well_formed_create (e : Env) (r : Request) (st : World) :
  well_formed (secrets st) -> well_formed (secrets (snd (handleCreateSecret e r st))).
Proof.
  intros (Hrows & Hv & Hm).
  destruct (handleCreateSecret_inversion e r st)
    as [[msg H]|[[src H]|(form & n & d1 & d2 & rest & Hf & Hc & Ht & He & H1 & H2
                            & Hup & Hu & H)]];
    rewrite H; cbn [snd secrets]; [repeat split; assumption..|].
  unfold unique_violation in Hu. apply orb_false_iff in Hu. destruct Hu as [Huv Hum].
  split; [|split].
  - apply Forall_app. split; [exact Hrows|]. constructor; [|constructor].
    unfold well_formed_row. cbn [viewing_id management_id ttl cipher_text deleted_at
                                  deletion_reason].
    repeat split; try (apply is_identifier_hex; assumption);
      try (apply (strconv_Atoi_range _ _ Ht)).
    left. exists (envelope_of form). auto.
  - rewrite map_app. apply NoDup_app; [exact Hv|repeat constructor; intros []|].
    intros x Hx [<-|[]]. revert Hx. apply not_in_map_eqb. exact Huv.
  - rewrite map_app. apply NoDup_app; [exact Hm|repeat constructor; intros []|].
    intros x Hx [<-|[]]. revert Hx. apply not_in_map_eqb. exact Hum.
Qed.

Lemma well_formed_delete (e : Env) (r : Request) (st : World) :
  well_formed (secrets st) -> well_formed (secrets (snd (handleDeleteSecret e r st))).
Proof.
  intros (Hrows & Hv & Hm). rewrite handleDeleteSecret_cases.
  destruct (db_up e); cbn [snd secrets]; [|repeat split; assumption].
  split; [|split].
  - unfold sql_update_deleted. apply Forall_forall. intros s' Hs'.
    apply in_map_iff in Hs'. destruct Hs' as (s & <- & Hs).
    rewrite Forall_forall in Hrows. specialize (Hrows s Hs).
    destruct (String.eqb (management_id s) _); [|exact Hrows].
    destruct Hrows as (Hiv & Him & Ht & _).
    unfold well_formed_row. cbn. repeat split; try assumption; try apply Hiv;
      try apply Him; try apply Ht.
    right. repeat split. discriminate.
  - rewrite map_id_sql_update_deleted; [exact Hv|reflexivity].
  - rewrite map_id_sql_update_deleted; [exact Hm|reflexivity].
Qed.

Lemma well_formed_run (a : Application) (calls : list (Call * Env * Request))
    (st : World) :
  well_formed (secrets st) -> well_formed (secrets (run a calls st)).
Proof.
  revert st. induction calls as [|[[c e] r] rest IH]; intros st H; simpl; [exact H|].
  apply IH. destruct c; simpl.
  - apply well_formed_create. exact H.
  - rewrite handleGetSecret_world. exact H.
  - rewrite handleManageSecret_world. exact H.
  - apply well_formed_delete. exact H.
Qed.

Lemma well_formed_nil : well_formed [].
Proof. repeat split; constructor. Qed.

(** X3. Every table the handlers build from an empty one, and every
    table they build from a table of that kind, is well formed: the
    identifiers are 48 hexadecimal digits and no two rows share a
    viewing or a management identifier, every TTL fits the platform
    [int], and each row either is active, with an envelope of exactly
    two separators and neither time nor reason of deletion, or is
    deleted by the user, with a time of deletion and no ciphertext. *)
Theorem handlers_keep_table_well_formed (a : Application)
    (calls : list (Call * Env * Request)) :
  (forall src, well_formed (secrets (run a calls (mkWorld [] src))))
  /\ (forall st, well_formed (secrets st) -> well_formed (secrets (run a calls st))).
Proof.
  split.
  - intros src. apply well_formed_run. apply well_formed_nil.
  - intros st. apply well_formed_run.
Qed.

Lemma status_notFound (r : Request) : status (notFound r) = Some StatusSeeOther.
Proof.
  unfold notFound, Redirect, Write_body, WriteHeader.
  destruct (String.eqb (Method r) "GET"); reflexivity.
Qed.

Lemma status_oops (r : Request) : status (oops r) = Some StatusSeeOther.
Proof.
  unfold oops, Redirect, Write_body, WriteHeader.
  destruct (String.eqb (Method r) "GET"); reflexivity.
Qed.

Lemma location_oops (r : Request) : location (oops r) = Some "/oops"%string.
Proof.
  unfold oops, Redirect, Write_body, WriteHeader.
  destruct (String.eqb (Method r) "GET"); reflexivity.
Qed.

Lemma location_notFound (r : Request) : location (notFound r) = Some "/"%string.
Proof.
  unfold notFound, Redirect, Write_body, WriteHeader.
  destruct (String.eqb (Method r) "GET"); reflexivity.
Qed.

Lemma status_viewPage (r : Request) (c : string) : status (viewPage r c) = Some 200.
Proof. apply (rendered r (fun n => pageViewSecret c n)). Qed.

(** X4. On a table the handlers built from an empty one, a view that
    reaches the database never ends on the failure page: it is answered
    either as not found or with the view page of a ciphertext that is
    stored, under the viewing identifier asked for, in a row that is not
    deleted, and that ciphertext holds exactly two separators. *)
Theorem view_finds_envelope_or_nothing (a : Application)
    (calls : list (Call * Env * Request)) (src : list Draw) (e : Env) (r : Request) :
  db_up e = true ->
  let st := run a calls (mkWorld [] src) in
  (fst (handleGetSecret e r st) = notFound r
   \/ exists s c,
        In s (secrets st)
        /\ viewing_id s = PathValue r "viewingID"
        /\ deleted_at s = None
        /\ cipher_text s = Some c
        /\ Go.strings_Count c "." = 2%nat
        /\ fst (handleGetSecret e r st) = viewPage r c)
  /\ fst (handleGetSecret e r st) <> oops r.
Proof.
  intros Hup st.
  assert (Hwf : well_formed (secrets st))
    by (apply well_formed_run; apply well_formed_nil).
  assert (Hcases : fst (handleGetSecret e r st) = notFound r
   \/ exists s c,
        In s (secrets st)
        /\ viewing_id s = PathValue r "viewingID"
        /\ deleted_at s = None
        /\ cipher_text s = Some c
        /\ Go.strings_Count c "." = 2%nat
        /\ fst (handleGetSecret e r st) = viewPage r c).
  { destruct (sql_select_cipher_text (secrets st) (PathValue r "viewingID"))
      as [err|c] eqn:E.
    - unfold sql_select_cipher_text in E.
      destruct (find _ (secrets st)) as [s|] eqn:Ef.
      + apply find_some in Ef. destruct Ef as [Hin Hb].
        apply andb_true_iff in Hb. destruct Hb as [_ Hd].
        destruct Hwf as (Hrows & _). rewrite Forall_forall in Hrows.
        destruct (Hrows s Hin) as (_ & _ & _ & [(c & Hc & _)|(_ & Hdel & _)]).
        * rewrite Hc in E. discriminate.
        * destruct (deleted_at s); [discriminate|contradiction].
      + left. rewrite (handleGetSecret_no_row e r st), Hup; [reflexivity|].
        unfold sql_select_cipher_text. rewrite Ef. reflexivity.
    - right. rewrite (handleGetSecret_found e r st c Hup E). simpl fst.
      unfold sql_select_cipher_text in E.
      destruct (find _ (secrets st)) as [s|] eqn:Ef; [|discriminate].
      apply find_some in Ef. destruct Ef as [Hin Hb].
      apply andb_true_iff in Hb. destruct Hb as [Hv Hd].
      apply String.eqb_eq in Hv.
      destruct (cipher_text s) as [c'|] eqn:Hc; [|discriminate].
      inversion E. subst c'.
      destruct Hwf as (Hrows & _). rewrite Forall_forall in Hrows.
      destruct (Hrows s Hin) as (_ & _ & _ & [(c2 & Hc2 & Hcount & Hdn & _)|(Hcn & _)]).
      + exists s, c. rewrite Hc in Hc2. inversion Hc2. subst c2. repeat split; auto.
      + rewrite Hc in Hcn. discriminate. }
  split; [exact Hcases|].
  destruct Hcases as [H|(s & c & _ & _ & _ & _ & _ & H)]; rewrite H; intros Heq.
  - apply (f_equal location) in Heq. rewrite location_notFound, location_oops in Heq.
    discriminate.
  - apply (f_equal status) in Heq. rewrite status_viewPage, status_oops in Heq.
    discriminate.
Qed.

Lemma view_finds_envelope_or_nothing_witness :
  fst (handleGetSecret (Scenario.at_time 3000) (Scenario.view Scenario.id1) Scenario.gone)
  <> oops (Scenario.view Scenario.id1).
Proof.
  apply (view_finds_envelope_or_nothing Scenario.app
           [(CreateSecret, Scenario.at_time 1000, Scenario.create "abc.def.ghi" "3600");
            (GetSecret, Scenario.at_time 1500, Scenario.view Scenario.id1);
            (DeleteSecret, Scenario.at_time 2000, Scenario.delete Scenario.id2);
            (ManageSecret, Scenario.at_time 2500, Scenario.manage Scenario.id2)]
           [Scenario.draw1; Scenario.draw2; Scenario.draw3; Scenario.draw4]
           (Scenario.at_time 3000) (Scenario.view Scenario.id1)).
  reflexivity.
Defined.

(** ** A secret that is not deleted *)

Lemma find_unique {A : Type} (f : A -> bool) (l : list A) (x : A) :
  In x l -> f x = true -> (forall y, In y l -> f y = true -> y = x) ->
  find f l = Some x.
Proof.
  intros Hin Hfx Hu. destruct (find f l) as [y|] eqn:E.
  - apply find_some in E. destruct E as [Hy Hfy]. rewrite (Hu y Hy Hfy). reflexivity.
  - rewrite (find_none f l E x Hin) in Hfx. discriminate.
Qed.

(** The row a create appended is active and alone under its
    identifiers. *)
Lemma created_live (e : Env) (r : Request) (st : World) (s : Secret) :
  secrets (snd (handleCreateSecret e r st)) = secrets st ++ [s] ->
  live s (secrets (snd (handleCreateSecret e r st)))
  /\ deleted_at s = None
  /\ exists form, Form r = Some form /\ cipher_text s = Some (envelope_of form).
Proof.
  intros H. pose proof (created_fresh e r st s H) as Hu.
  rewrite unique_violation_false in Hu.
  split; [|].
  - rewrite H. split; [apply in_or_app; right; left; reflexivity|].
    intros s' Hs' Hids. apply in_app_or in Hs'. destruct Hs' as [Hs'|[<-|[]]].
    + destruct (Hu s' Hs') as [Hv Hm]. destruct Hids; contradiction.
    + reflexivity.
  - destruct (handleCreateSecret_inversion e r st)
      as [[msg H']|[[src H']|(form & n & d1 & d2 & rest & Hf & _ & _ & _ & _ & _
                               & _ & _ & H')]];
      rewrite H' in H; cbn [snd secrets] in H.
    + apply (f_equal (@List.length Secret)) in H. rewrite length_app in H.
      simpl in H. lia.
    + apply (f_equal (@List.length Secret)) in H. rewrite length_app in H.
      simpl in H. lia.
    + apply app_inv_head in H. inversion H. subst s. simpl. eauto.
Qed.

Lemma live_serve (a : Application) (c : Call) (e : Env) (r : Request) (st : World)
    (s : Secret) :
  (c = DeleteSecret -> PathValue r "managementID" <> management_id s) ->
  live s (secrets st) -> live s (secrets (snd (serve a c e r st))).
Proof.
  intros Hspare [Hin Hu]. destruct c; simpl.
  - destruct (handleCreateSecret_inversion e r st)
      as [[msg H]|[[src H]|(form & n & d1 & d2 & rest & _ & _ & _ & _ & _ & _
                              & _ & Huv & H)]];
      rewrite H; cbn [snd secrets]; [split; assumption..|].
    rewrite unique_violation_false in Huv. split; [apply in_or_app; left; exact Hin|].
    intros s' Hs' Hids. apply in_app_or in Hs'. destruct Hs' as [Hs'|[<-|[]]].
    + apply Hu; assumption.
    + destruct (Huv s Hin) as [Hv Hm]. simpl in Hids.
      destruct Hids as [Hi|Hi]; symmetry in Hi; contradiction.
  - rewrite handleGetSecret_world. split; assumption.
  - rewrite handleManageSecret_world. split; assumption.
  - rewrite handleDeleteSecret_cases.
    destruct (db_up e); cbn [snd secrets]; [|split; assumption].
    specialize (Hspare eq_refl).
    assert (Hs : String.eqb (management_id s) (PathValue r "managementID") = false)
      by (apply String.eqb_neq; congruence).
    split.
    + apply in_sql_update_deleted. exists s. rewrite Hs. auto.
    + intros s' Hs' Hids. apply in_sql_update_deleted in Hs'.
      destruct Hs' as (s0 & Hin0 & ->).
      destruct (String.eqb (management_id s0) (PathValue r "managementID")) eqn:E0.
      * simpl in Hids. assert (s0 = s) by (apply Hu; assumption). subst s0.
        rewrite Hs in E0. discriminate.
      * apply Hu; assumption.
Qed.

Lemma live_run (a : Application) (calls : list (Call * Env * Request)) (st : World)
    (s : Secret) :
  spares (management_id s) calls = true ->
  live s (secrets st) -> live s (secrets (run a calls st)).
Proof.
  revert st. induction calls as [|[[c e] r] rest IH]; intros st Hsp Hl; [exact Hl|].
  simpl in Hsp. apply andb_true_iff in Hsp. destruct Hsp as [Hc Hrest].
  simpl. apply IH; [exact Hrest|]. apply live_serve; [|exact Hl].
  intros ->. apply negb_true_iff in Hc. apply String.eqb_neq. exact Hc.
Qed.

(** X5. A secret stays readable until its own delete.  After a create
    that stored the row [s], and any requests among which no delete
    names the management identifier of [s] (creates, views, manages and
    deletes of other secrets), a view with the viewing identifier of [s]
    that reaches the database renders the envelope as it was sent, as
    often as it is asked, and a manage with its management identifier
    renders the manage page with its viewing identifier. *)
Theorem secret_stays_until_deleted
    (a : Application) (st0 : World) (ec : Env) (rc : Request)
    (calls : list (Call * Env * Request)) (s : Secret) (e : Env) :
  secrets (snd (handleCreateSecret ec rc st0)) = secrets st0 ++ [s] ->
  spares (management_id s) calls = true ->
  db_up e = true ->
  let st := run a calls (snd (handleCreateSecret ec rc st0)) in
  exists form,
    Form rc = Some form
    /\ (forall rv, PathValue rv "viewingID" = viewing_id s ->
          handleGetSecret e rv st = (viewPage rv (envelope_of form), st))
    /\ (forall rm, PathValue rm "managementID" = management_id s ->
          fst (handleManageSecret a e rm st) = managePage a rm (viewing_id s)).
Proof.
  intros Hc Hsp Hup st.
  destruct (created_live ec rc st0 s Hc) as (Hlive & Hd & form & Hf & Hct).
  pose proof (live_run a calls _ s Hsp Hlive) as [Hin Hu]. fold st in Hin, Hu.
  exists form. split; [exact Hf|split].
  - intros rv Hv. apply (handleGetSecret_found e rv st _ Hup).
    unfold sql_select_cipher_text. rewrite Hv.
    rewrite (find_unique _ _ s Hin).
    + rewrite Hct. reflexivity.
    + rewrite String.eqb_refl, Hd. reflexivity.
    + intros s' Hs' Hb. apply andb_true_iff in Hb. destruct Hb as [Hb _].
      apply String.eqb_eq in Hb. apply Hu; auto.
  - intros rm Hm. rewrite handleManageSecret_cases, Hup, Hm.
    unfold sql_select_viewing_id. rewrite (find_unique _ _ s Hin).
    + reflexivity.
    + rewrite String.eqb_refl, Hd. reflexivity.
    + intros s' Hs' Hb. apply andb_true_iff in Hb. destruct Hb as [Hb _].
      apply String.eqb_eq in Hb. apply Hu; auto.
Qed.

Lemma secret_stays_until_deleted_witness :
  exists form,
    Form (Scenario.create "abc.def.ghi" "3600") = Some form
    /\ (forall rv, PathValue rv "viewingID" = Scenario.id1 ->
          handleGetSecret (Scenario.at_time 4000) rv
            (run Scenario.app
               [(GetSecret, Scenario.at_time 1500, Scenario.view Scenario.id1);
                (CreateSecret, Scenario.at_time 1600, Scenario.create "j.k.l" "60");
                (DeleteSecret, Scenario.at_time 1700, Scenario.delete Scenario.id1)]
               Scenario.one)
          = (viewPage rv (envelope_of form),
             run Scenario.app
               [(GetSecret, Scenario.at_time 1500, Scenario.view Scenario.id1);
                (CreateSecret, Scenario.at_time 1600, Scenario.create "j.k.l" "60");
                (DeleteSecret, Scenario.at_time 1700, Scenario.delete Scenario.id1)]
               Scenario.one))
    /\ (forall rm, PathValue rm "managementID" = Scenario.id2 ->
          fst (handleManageSecret Scenario.app (Scenario.at_time 4000) rm
                 (run Scenario.app
                    [(GetSecret, Scenario.at_time 1500, Scenario.view Scenario.id1);
                     (CreateSecret, Scenario.at_time 1600, Scenario.create "j.k.l" "60");
                     (DeleteSecret, Scenario.at_time 1700, Scenario.delete Scenario.id1)]
                    Scenario.one))
          = managePage Scenario.app rm Scenario.id1).
Proof.
  apply (secret_stays_until_deleted Scenario.app Scenario.empty
           (Scenario.at_time 1000) (Scenario.create "abc.def.ghi" "3600")
           [(GetSecret, Scenario.at_time 1500, Scenario.view Scenario.id1);
            (CreateSecret, Scenario.at_time 1600, Scenario.create "j.k.l" "60");
            (DeleteSecret, Scenario.at_time 1700, Scenario.delete Scenario.id1)]
           Scenario.secret1 (Scenario.at_time 4000));
    reflexivity.
Defined.

(** ** Managing and deleting what is not there *)

Lemma scrubbed_no_active_row (v m : string) (t : Table) :
  scrubbed v m t -> sql_select_viewing_id t m = inl ErrNoRows.
Proof.
  intros [_ Hall]. unfold sql_select_viewing_id.
  rewrite find_none_intro; [reflexivity|].
  intros s Hs. destruct (String.eqb (management_id s) m) eqn:E; [|reflexivity].
  apply String.eqb_eq in E. destruct (Hall s Hs E) as (_ & Hd & _).
  destruct (deleted_at s); [reflexivity|contradiction].
Qed.

Lemma unknown_no_active_row (m : string) (t : Table) :
  existsb (fun s => String.eqb (management_id s) m) t = false ->
  sql_select_viewing_id t m = inl ErrNoRows.
Proof.
  rewrite existsb_false_iff. intros H. unfold sql_select_viewing_id.
  rewrite find_none_intro; [reflexivity|].
  intros s Hs. rewrite (H s Hs). reflexivity.
Qed.

(** X6. The manage page hides existence as the view page does.  After a
    create that stored the row [s], any requests, a delete with its
    management identifier and any further requests, a manage with that
    identifier is answered as in any world where no row is under it:
    with the not-found notification and redirect when the database
    answers, the very response a view sends for an unknown viewing
    identifier. *)
Theorem manage_deleted_like_never_existed
    (a : Application) (st0 : World) (ec : Env) (rc : Request)
    (mid : list (Call * Env * Request)) (ed : Env) (rd : Request)
    (post : list (Call * Env * Request)) (s : Secret)
    (e : Env) (r : Request) (stB : World) :
  secrets (snd (handleCreateSecret ec rc st0)) = secrets st0 ++ [s] ->
  PathValue rd "managementID" = management_id s ->
  db_up ed = true ->
  PathValue r "managementID" = management_id s ->
  existsb (fun s' => String.eqb (management_id s') (management_id s)) (secrets stB)
  = false ->
  let stA := deleted_life a st0 ec rc mid ed rd post in
  fst (handleManageSecret a e r stA) = fst (handleManageSecret a e r stB)
  /\ fst (handleManageSecret a e r stA) = (if db_up e then notFound r else oops r)
  /\ (never_existed (PathValue r "viewingID") (secrets stB) ->
      fst (handleManageSecret a e r stA) = fst (handleGetSecret e r stB)).
Proof.
  intros Hc Hm Hup Hr HB stA.
  assert (HA : fst (handleManageSecret a e r stA) = if db_up e then notFound r else oops r).
  { rewrite handleManageSecret_cases, Hr.
    rewrite (scrubbed_no_active_row (viewing_id s)); [reflexivity|].
    apply deleted_life_scrubbed; assumption. }
  repeat split.
  - rewrite HA, handleManageSecret_cases, Hr, (unknown_no_active_row _ _ HB).
    reflexivity.
  - exact HA.
  - intros Hne. rewrite HA. symmetry. apply handleGetSecret_no_row.
    apply never_existed_no_row. exact Hne.
Qed.

Lemma manage_deleted_like_never_existed_witness :
  fst (handleManageSecret Scenario.app (Scenario.at_time 3000)
         (Scenario.manage Scenario.id2) Scenario.gone)
  = notFound (Scenario.manage Scenario.id2).
Proof.
  apply (manage_deleted_like_never_existed Scenario.app Scenario.empty
           (Scenario.at_time 1000) (Scenario.create "abc.def.ghi" "3600")
           [(GetSecret, Scenario.at_time 1500, Scenario.view Scenario.id1)]
           (Scenario.at_time 2000) (Scenario.delete Scenario.id2)
           [(ManageSecret, Scenario.at_time 2500, Scenario.manage Scenario.id2)]
           Scenario.secret1
           (Scenario.at_time 3000) (Scenario.manage Scenario.id2) (mkWorld [] []));
    reflexivity.
Defined.

(** X7. A delete with an identifier that is the management identifier of
    no row, the viewing identifier of a secret for one, changes nothing
    in the world and is still answered with the success notification and
    redirect. *)
Theorem delete_of_unknown_changes_nothing (e : Env) (r : Request) (st : World) :
  db_up e = true ->
  existsb (fun s => String.eqb (management_id s) (PathValue r "managementID"))
    (secrets st) = false ->
  handleDeleteSecret e r st = (deleted r, st).
Proof.
  intros Hup Hu. rewrite handleDeleteSecret_cases, Hup.
  rewrite (sql_update_deleted_unknown _ _ _ _ Hu). destruct st. reflexivity.
Qed.

Lemma delete_of_unknown_changes_nothing_witness :
  handleDeleteSecret (Scenario.at_time 2000) (Scenario.delete Scenario.id1) Scenario.one
  = (deleted (Scenario.delete Scenario.id1), Scenario.one).
Proof.
  apply (delete_of_unknown_changes_nothing (Scenario.at_time 2000)
           (Scenario.delete Scenario.id1) Scenario.one);
    reflexivity.
Defined.

(** ** Where the ciphertext goes *)

Lemma unique_violation_erase (t : Table) (v m : string) :
  unique_violation (map erase_cipher_text t) v m = unique_violation t v m.
Proof.
  unfold unique_violation. f_equal; induction t as [|s t IH]; simpl; congruence.
Qed.

Lemma sql_update_deleted_erase (t : Table) (now : Z) (reason : DeletionReason)
    (m : string) :
  map erase_cipher_text (sql_update_deleted t now reason m)
  = sql_update_deleted (map erase_cipher_text t) now reason m.
Proof.
  unfold sql_update_deleted. rewrite !map_map. apply map_ext. intros s.
  simpl. destruct (String.eqb (management_id s) m); reflexivity.
Qed.

Lemma handleCreateSecret_erase (e : Env) (r : Request) (st st' : World) :
  map erase_cipher_text (secrets st) = map erase_cipher_text (secrets st') ->
  entropy st = entropy st' ->
  fst (handleCreateSecret e r st) = fst (handleCreateSecret e r st')
  /\ map erase_cipher_text (secrets (snd (handleCreateSecret e r st)))
     = map erase_cipher_text (secrets (snd (handleCreateSecret e r st')))
  /\ entropy (snd (handleCreateSecret e r st))
     = entropy (snd (handleCreateSecret e r st')).
Proof.
  intros Heq Hent. unfold handleCreateSecret. rewrite <- Hent.
  destruct (Form r) as [form|]; [|auto].
  destruct (negb _); [auto|].
  destruct (Go.strconv_Atoi _) as [n|]; [|auto].
  destruct (secureID (entropy st)) as [[v|] src1]; [|auto].
  destruct (secureID src1) as [[m|] src2]; [|auto].
  unfold db_Exec_insert, sql_insert.
  destruct (db_up e); [|auto].
  rewrite <- (unique_violation_erase (secrets st)),
          <- (unique_violation_erase (secrets st')), Heq.
  destruct (unique_violation _ v m); [auto|].
  cbn [fst snd secrets entropy]. rewrite !map_app, Heq. auto.
Qed.

Lemma serve_erase (a : Application) (c : Call) (e : Env) (r : Request)
    (st st' : World) :
  map erase_cipher_text (secrets st) = map erase_cipher_text (secrets st') ->
  entropy st = entropy st' ->
  map erase_cipher_text (secrets (snd (serve a c e r st)))
  = map erase_cipher_text (secrets (snd (serve a c e r st')))
  /\ entropy (snd (serve a c e r st)) = entropy (snd (serve a c e r st')).
Proof.
  intros Heq Hent. destruct c; simpl.
  - apply handleCreateSecret_erase; assumption.
  - rewrite !handleGetSecret_world. auto.
  - rewrite !handleManageSecret_world. auto.
  - rewrite !handleDeleteSecret_cases.
    destruct (db_up e); cbn [snd secrets entropy]; [|auto].
    rewrite !sql_update_deleted_erase, Heq. auto.
Qed.

(** X8. Stored ciphertext reaches the view page and nothing else.  Take
    two worlds with the same entropy source whose tables agree on every
    column but [cipher_text], and serve both the same requests: the
    tables go on agreeing on every column but [cipher_text], the entropy
    sources stay the same, and a create, a manage or a delete served
    next is answered alike in both. *)
Theorem ciphertext_reaches_only_views (a : Application)
    (calls : list (Call * Env * Request)) (c : Call) (e : Env) (r : Request)
    (st st' : World) :
  map erase_cipher_text (secrets st) = map erase_cipher_text (secrets st') ->
  entropy st = entropy st' ->
  map erase_cipher_text (secrets (run a calls st))
  = map erase_cipher_text (secrets (run a calls st'))
  /\ entropy (run a calls st) = entropy (run a calls st')
  /\ (c <> GetSecret ->
      fst (serve a c e r (run a calls st)) = fst (serve a c e r (run a calls st'))).
Proof.
  revert st st'. induction calls as [|[[c0 e0] r0] rest IH]; intros st st' Heq Hent.
  - simpl. split; [exact Heq|split; [exact Hent|]].
    intros Hc. destruct c; simpl.
    + apply handleCreateSecret_erase; assumption.
    + contradiction.
    + rewrite !handleManageSecret_cases.
      rewrite <- (sql_select_viewing_id_erase (secrets st)),
              <- (sql_select_viewing_id_erase (secrets st')), Heq.
      reflexivity.
    + rewrite !handleDeleteSecret_cases. destruct (db_up e); reflexivity.
  - simpl. destruct (serve_erase a c0 e0 r0 st st' Heq Hent) as [Heq' Hent'].
    apply IH; assumption.
Qed.

Lemma ciphertext_reaches_only_views_witness :
  map erase_cipher_text
    (secrets (run Scenario.app
                [(CreateSecret, Scenario.at_time 1600, Scenario.create "j.k.l" "60")]
                Scenario.one))
  = map erase_cipher_text
      (secrets (run Scenario.app
                  [(CreateSecret, Scenario.at_time 1600, Scenario.create "j.k.l" "60")]
                  (mkWorld [mkSecret Scenario.id1 Scenario.id2 (Some "x.y.z") 3600 1000
                              None None]
                     [Scenario.draw3; Scenario.draw4]))).
Proof.
  apply (ciphertext_reaches_only_views Scenario.app
           [(CreateSecret, Scenario.at_time 1600, Scenario.create "j.k.l" "60")]
           DeleteSecret (Scenario.at_time 1700) (Scenario.delete Scenario.id2)
           Scenario.one
           (mkWorld [mkSecret Scenario.id1 Scenario.id2 (Some "x.y.z") 3600 1000
                       None None]
              [Scenario.draw3; Scenario.draw4]));
    reflexivity.
Defined.

(** ** Identifiers *)

Lemma hex_decode_byte (v : byte) :
  match hex_value (Go.hex_digit (N.shiftr (Byte.to_N v) 4)),
        hex_value (Go.hex_digit (N.land (Byte.to_N v) 15)) with
  | Some h, Some l => Byte.of_N (16 * h + l)
  | _, _ => None
  end = Some v.
Proof. destruct v; vm_compute; reflexivity. Qed.

Lemma hex_decode_encode (b : list byte) :
  hex_decode (Go.hex_EncodeToString b) = Some b.
Proof.
  induction b as [|v b IH]; [reflexivity|].
  cbn [Go.hex_EncodeToString hex_decode]. rewrite IH.
  pose proof (hex_decode_byte v) as Hv.
  destruct (hex_value (Go.hex_digit (N.shiftr (Byte.to_N v) 4))) as [h|];
    [|discriminate].
  destruct (hex_value (Go.hex_digit (N.land (Byte.to_N v) 15))) as [l|];
    [|discriminate].
  rewrite Hv. reflexivity.
Qed.

(** X9. An identifier names its draw.  The identifier [secureID] returns
    decodes to the 24 bytes it read, so two calls return the same
    identifier exactly when they read the same 24 bytes: no two
    different draws share an identifier. *)
Theorem secureID_is_injective (src src' rest rest' : list Draw) (id id' : string) :
  secureID src = (Some id, rest) ->
  secureID src' = (Some id', rest') ->
  exists d d',
    src = d :: rest /\ src' = d' :: rest'
    /\ hex_decode id = Some (firstn 24 d)
    /\ List.length (firstn 24 d) = 24%nat
    /\ (id = id' <-> firstn 24 d = firstn 24 d').
Proof.
  intros H H'.
  apply secureID_inv in H. destruct H as (d & -> & Hl & ->).
  apply secureID_inv in H'. destruct H' as (d' & -> & Hl' & ->).
  exists d, d'. repeat split.
  - apply hex_decode_encode.
  - rewrite length_firstn. lia.
  - intros Heq. apply (f_equal hex_decode) in Heq.
    rewrite !hex_decode_encode in Heq. congruence.
  - intros ->. reflexivity.
Qed.

Lemma secureID_is_injective_witness :
  exists d d',
    [Scenario.draw1; Scenario.draw2] = d :: [Scenario.draw2]
    /\ [Scenario.draw3] = d' :: []
    /\ hex_decode Scenario.id1 = Some (firstn 24 d)
    /\ List.length (firstn 24 d) = 24%nat
    /\ (Scenario.id1 = "030303030303030303030303030303030303030303030303"%string
        <-> firstn 24 d = firstn 24 d').
Proof.
  apply (secureID_is_injective [Scenario.draw1; Scenario.draw2] [Scenario.draw3]
           [Scenario.draw2] [] Scenario.id1
           "030303030303030303030303030303030303030303030303");
    reflexivity.
Defined.

(** ** Notifications *)

Lemma set_cookie_Redirect (r : Request) (url : string) (code : Z) (w : Response) :
  set_cookie (Redirect RedirectNote r url code w) = set_cookie w.
Proof.
  destruct w as [[z|] loc ck bd]; unfold Redirect, Write_body, WriteHeader;
    destruct (String.eqb (Method r) "GET"); reflexivity.
Qed.

Lemma set_cookie_deleted (r : Request) :
  set_cookie (deleted r)
  = [mkCookie "flash_success" "Secret successfully deleted." "/" 0 None].
Proof. unfold deleted. rewrite set_cookie_Redirect. reflexivity. Qed.

Lemma set_cookie_notFound (r : Request) :
  set_cookie (notFound r)
  = [mkCookie "flash_err" "Secret does not exist or has been deleted." "/" 0 None].
Proof. unfold notFound. rewrite set_cookie_Redirect. reflexivity. Qed.

Lemma handleGetIndex_cookies (r : Request) (err success : option string) :
  Cookie_of (Cookies r) "flash_err" = err ->
  Cookie_of (Cookies r) "flash_success" = success ->
  handleGetIndex r =
  mkResponseWriter Body (Some 200) None
    ((match err with Some _ => [expired "err"] | None => [] end)
     ++ (match success with Some _ => [expired "success"] | None => [] end))
    [pageIndex (mkNotifications
                  (match err with Some v => v | None => EmptyString end)
                  (match success with Some v => v | None => EmptyString end))].
Proof.
  intros He Hs. unfold handleGetIndex, notificationsFromRequest, flash.
  cbn [append]. rewrite He, Hs. destruct err, success; reflexivity.
Qed.

(** X10. The notification of a delete is shown once, on the index page.
    When the client follows the redirect of a delete that reached the
    database and sends back the cookie that response set, and no error
    notification is pending, the index page is rendered with the success
    message and no error message, and its response sets one cookie: the
    success notification again, emptied and expired, under the name and
    path of the cookie the delete set, so that the client drops it. *)
Theorem delete_notification_shown_once (e : Env) (r r' : Request) (st : World) :
  db_up e = true ->
  returns_cookies (fst (handleDeleteSecret e r st)) r' ->
  Cookie_of (Cookies r') "flash_err" = None ->
  handleGetIndex r' =
  mkResponseWriter Body (Some 200) None [expired "success"]
    [pageIndex (mkNotifications "" "Secret successfully deleted.")]
  /\ (forall c, In c (set_cookie (fst (handleDeleteSecret e r st))) ->
        Name (expired "success") = Name c /\ Path (expired "success") = Path c)
  /\ MaxAge (expired "success") < 0.
Proof.
  intros Hup Hret Herr. rewrite handleDeleteSecret_cases, Hup in Hret |- *.
  cbn [fst] in Hret |- *. rewrite set_cookie_deleted.
  split; [|split].
  - unfold returns_cookies in Hret. rewrite set_cookie_deleted in Hret.
    apply (handleGetIndex_cookies r' None (Some _) Herr).
    apply (Hret _ (or_introl eq_refl)).
  - intros c [<-|[]]. split; reflexivity.
  - reflexivity.
Qed.

Lemma delete_notification_shown_once_witness :
  handleGetIndex
    (mkRequest "GET" None [] [("flash_success", "Secret successfully deleted.")])
  = mkResponseWriter Body (Some 200) None [expired "success"]
      [pageIndex (mkNotifications "" "Secret successfully deleted.")].
Proof.
  apply (delete_notification_shown_once (Scenario.at_time 2000)
           (Scenario.delete Scenario.id2)
           (mkRequest "GET" None [] [("flash_success", "Secret successfully deleted.")])
           Scenario.one).
  - reflexivity.
  - intros c [<-|[]]. reflexivity.
  - reflexivity.
Defined.

Lemma status_managePage (a : Application) (r : Request) (secretID : string) :
  status (managePage a r secretID) = Some 200.
Proof.
  unfold managePage.
  apply (rendered r (fun n => pageManageSecret (PathValue r "managementID") _ _ n)).
Qed.

Lemma notFound_is_not_oops (r : Request) : notFound r <> oops r.
Proof.
  intros H. apply (f_equal location) in H.
  rewrite location_notFound, location_oops in H. discriminate.
Qed.

(** X11. A view, and likewise a manage, that reaches the database is
    answered with the not-found response exactly when its query finds no
    row.  The notification of that response is shown once, on the index
    page: when the client follows its redirect and sends back the cookie
    it set, and no success notification is pending, the index page is
    rendered with that error message and no success message, and its
    response sets one cookie: the error notification emptied and
    expired, under the name and path of the cookie set before. *)
Theorem not_found_notification_shown_once (a : Application) (e : Env)
    (r r' : Request) (st : World) :
  db_up e = true ->
  returns_cookies (notFound r) r' ->
  Cookie_of (Cookies r') "flash_success" = None ->
  (fst (handleGetSecret e r st) = notFound r
   <-> sql_select_cipher_text (secrets st) (PathValue r "viewingID") = inl ErrNoRows)
  /\ (fst (handleManageSecret a e r st) = notFound r
      <-> sql_select_viewing_id (secrets st) (PathValue r "managementID")
          = inl ErrNoRows)
  /\ handleGetIndex r' =
     mkResponseWriter Body (Some 200) None [expired "err"]
       [pageIndex (mkNotifications "Secret does not exist or has been deleted." "")]
  /\ (forall c, In c (set_cookie (notFound r)) ->
        Name (expired "err") = Name c /\ Path (expired "err") = Path c)
  /\ MaxAge (expired "err") < 0.
Proof.
  intros Hup Hret Hs. split; [|split; [|split; [|split]]].
  - split.
    + intros Hresp.
      destruct (sql_select_cipher_text (secrets st) (PathValue r "viewingID"))
        as [err|c] eqn:E.
      * destruct err; try reflexivity;
          unfold handleGetSecret, db_QueryRow_cipher_text in Hresp;
          rewrite Hup, E in Hresp; simpl in Hresp;
          fold (oops r) in Hresp; symmetry in Hresp;
          destruct (notFound_is_not_oops r Hresp).
      * rewrite (handleGetSecret_found e r st c Hup E) in Hresp. simpl in Hresp.
        apply (f_equal status) in Hresp.
        rewrite status_viewPage, status_notFound in Hresp. discriminate.
    + intros H. rewrite (handleGetSecret_no_row e r st H), Hup. reflexivity.
  - rewrite handleManageSecret_cases, Hup. split.
    + destruct (sql_select_viewing_id (secrets st) (PathValue r "managementID"))
        as [err|v]; intros Hresp.
      * destruct err; try reflexivity; symmetry in Hresp;
          destruct (notFound_is_not_oops r Hresp).
      * apply (f_equal status) in Hresp.
        rewrite status_managePage, status_notFound in Hresp. discriminate.
    + intros ->. reflexivity.
  - unfold returns_cookies in Hret. rewrite set_cookie_notFound in Hret.
    apply (handleGetIndex_cookies r' (Some _) None); [|exact Hs].
    apply (Hret _ (or_introl eq_refl)).
  - rewrite set_cookie_notFound. intros c [<-|[]]. split; reflexivity.
  - reflexivity.
Qed.

Lemma not_found_notification_shown_once_witness :
  (fst (handleGetSecret (Scenario.at_time 3000) (Scenario.view Scenario.id1)
          Scenario.gone)
   = notFound (Scenario.view Scenario.id1)
   <-> sql_select_cipher_text (secrets Scenario.gone)
         (PathValue (Scenario.view Scenario.id1) "viewingID") = inl ErrNoRows)
  /\ (fst (handleManageSecret Scenario.app (Scenario.at_time 3000)
             (Scenario.view Scenario.id1) Scenario.gone)
      = notFound (Scenario.view Scenario.id1)
      <-> sql_select_viewing_id (secrets Scenario.gone)
            (PathValue (Scenario.view Scenario.id1) "managementID") = inl ErrNoRows)
  /\ handleGetIndex
       (mkRequest "GET" None []
          [("flash_err", "Secret does not exist or has been deleted.")])
     = mkResponseWriter Body (Some 200) None [expired "err"]
         [pageIndex (mkNotifications "Secret does not exist or has been deleted." "")]
  /\ (forall c, In c (set_cookie (notFound (Scenario.view Scenario.id1))) ->
        Name (expired "err") = Name c /\ Path (expired "err") = Path c)
  /\ MaxAge (expired "err") < 0.
Proof.
  apply (not_found_notification_shown_once Scenario.app (Scenario.at_time 3000)
           (Scenario.view Scenario.id1)
           (mkRequest "GET" None []
              [("flash_err", "Secret does not exist or has been deleted.")])
           Scenario.gone).
  - reflexivity.
  - intros c [<-|[]]. reflexivity.
  - reflexivity.
Defined.

(** ** Routing *)

Lemma string_forallb_impl (p q : ascii -> bool) (s : string) :
  (forall c, p c = true -> q c = true) ->
  string_forallb p s = true -> string_forallb q s = true.
Proof.
  intros Hpq. induction s as [|c t IH]; simpl; [reflexivity|].
  intros H. apply andb_true_iff in H. destruct H as [Hc Ht].
  rewrite (Hpq c Hc), (IH Ht). reflexivity.
Qed.

Lemma strings_Split_no_sep (s : string) (sep : ascii) :
  string_forallb (fun c => negb (Ascii.eqb c sep)) s = true ->
  Go.strings_Split s sep = [s].
Proof.
  induction s as [|c t IH]; simpl; [reflexivity|].
  intros H. apply andb_true_iff in H. destruct H as [Hc Ht].
  apply negb_true_iff in Hc. rewrite Hc, (IH Ht). reflexivity.
Qed.

Lemma is_hex_digit_not (c x : ascii) :
  is_hex_digit x = false -> is_hex_digit c = true -> negb (Ascii.eqb c x) = true.
Proof.
  intros Hx Hc. destruct (Ascii.eqb_spec c x) as [->|]; [congruence|reflexivity].
Qed.

Lemma identifier_segment (id : string) :
  is_identifier id ->
  Go.strings_Split id "/" = [id]
  /\ plain_segment id = true
  /\ String.eqb id "" = false.
Proof.
  intros [Hlen Hhex].
  assert (Hne : forall s, String.length s <> 48%nat -> String.eqb id s = false).
  { intros s Hs. destruct (String.eqb_spec id s) as [->|]; [contradiction|reflexivity]. }
  split; [|split].
  - apply strings_Split_no_sep.
    apply (string_forallb_impl is_hex_digit); [|exact Hhex].
    intros c. apply is_hex_digit_not. reflexivity.
  - unfold plain_segment.
    rewrite (Hne "")%string, (Hne ".")%string, (Hne "..")%string by (simpl; lia).
    simpl. apply (string_forallb_impl is_hex_digit); [|exact Hhex].
    intros c. apply is_hex_digit_not. reflexivity.
  - apply Hne. simpl. lia.
Qed.

Lemma mapRoutes_secret (method id : string) :
  is_identifier id -> is_GET method = true ->
  mapRoutes method ("/secret/" ++ id) = Some (RouteGetSecret id).
Proof.
  intros Hid Hm. destruct (identifier_segment id Hid) as (Hs & Hp & Hn).
  unfold mapRoutes. simpl. rewrite Hs. simpl. rewrite Hp, Hm, Hn. reflexivity.
Qed.

Lemma mapRoutes_manage (method id : string) :
  is_identifier id -> is_GET method = true ->
  mapRoutes method ("/manage-secret/" ++ id) = Some (RouteManageSecret id).
Proof.
  intros Hid Hm. destruct (identifier_segment id Hid) as (Hs & Hp & Hn).
  unfold mapRoutes. simpl. rewrite Hs. simpl. rewrite Hp, Hm, Hn. reflexivity.
Qed.

Lemma strings_Split_app (s t : string) (sep : ascii) :
  string_forallb (fun c => negb (Ascii.eqb c sep)) s = true ->
  Go.strings_Split (s ++ String sep t) sep = s :: Go.strings_Split t sep.
Proof.
  induction s as [|c s IH]; simpl.
  - intros _. rewrite Ascii.eqb_refl. reflexivity.
  - intros H. apply andb_true_iff in H. destruct H as [Hc Hs].
    apply negb_true_iff in Hc. rewrite Hc, (IH Hs). reflexivity.
Qed.

Lemma segments_delete (id : string) :
  is_identifier id ->
  segments ("/manage-secret/" ++ id ++ "/delete")
  = Some ["manage-secret"; id; "delete"]%string
  /\ clean ["manage-secret"; id; "delete"]%string = true.
Proof.
  intros Hid. destruct (identifier_segment id Hid) as (Hs & Hp & Hn). split.
  - simpl. rewrite strings_Split_app; [reflexivity|].
    destruct Hid as [_ Hhex].
    apply (string_forallb_impl is_hex_digit); [|exact Hhex].
    intros c. apply is_hex_digit_not. reflexivity.
  - simpl. rewrite Hp. reflexivity.
Qed.

Lemma mapRoutes_delete (id : string) :
  is_identifier id ->
  mapRoutes "POST" ("/manage-secret/" ++ id ++ "/delete") = Some (RouteDeleteSecret id)
  /\ (forall method, is_GET method = true ->
        mapRoutes method ("/manage-secret/" ++ id ++ "/delete") = Some RouteIndex).
Proof.
  intros Hid. destruct (segments_delete id Hid) as [Hseg Hclean].
  destruct (identifier_segment id Hid) as (_ & _ & Hn).
  unfold mapRoutes. rewrite Hseg, Hclean. split.
  - simpl. rewrite Hn. reflexivity.
  - intros method Hm. rewrite Hm. reflexivity.
Qed.

Lemma mapRoutes_GET (method path : string) :
  is_GET method = true ->
  mapRoutes method path <> Some RouteCreateSecret
  /\ forall m, mapRoutes method path <> Some (RouteDeleteSecret m).
Proof.
  intros Hm. unfold mapRoutes.
  destruct (segments path) as [segs|]; [|split; [|intros m]; discriminate].
  destruct (negb (clean segs)); [split; [|intros m]; discriminate|].
  rewrite Hm.
  destruct segs as [|s1 [|s2 [|s3 rest]]];
    repeat match goal with
           | |- context [if ?b then _ else _] => destruct b
           end;
    split; try intros m; discriminate.
Qed.

(** X12. Reading never writes.  A GET or HEAD request, whatever its
    path, is never routed to the create or the delete handler, and when
    [web.go] serves it the table and the entropy source are left as they
    were; a GET of the delete link of a secret is routed to the index
    page. *)
Theorem get_requests_change_nothing (a : Application) (e : Env) (path : string)
    (r : Request) (st : World) :
  is_GET (Method r) = true ->
  (forall resp st', ServeHTTP a e path r st = Some (resp, st') -> st' = st)
  /\ mapRoutes (Method r) path <> Some RouteCreateSecret
  /\ (forall m, mapRoutes (Method r) path <> Some (RouteDeleteSecret m))
  /\ (forall m, is_identifier m ->
        ServeHTTP a e ("/manage-secret/" ++ m ++ "/delete") r st
        = Some (handleGetIndex r, st)).
Proof.
  intros Hm. destruct (mapRoutes_GET (Method r) path Hm) as [Hc Hd].
  split; [|split; [exact Hc|split; [exact Hd|]]].
  - intros resp st'. unfold ServeHTTP.
    destruct (mapRoutes (Method r) path) as [[| | | | | |v|m|m]|];
      try discriminate; intros H; inversion H as [H1].
    + reflexivity.
    + destruct Hc. reflexivity.
    + rewrite <- (handleGetSecret_world e (with_PathValue r "viewingID" v) st), H1.
      reflexivity.
    + rewrite <- (handleManageSecret_world a e (with_PathValue r "managementID" m) st),
        H1.
      reflexivity.
    + destruct (Hd m). reflexivity.
  - intros m Hid. unfold ServeHTTP.
    destruct (mapRoutes_delete m Hid) as [_ Hg]. rewrite (Hg _ Hm). reflexivity.
Qed.

Lemma get_requests_change_nothing_witness :
  ServeHTTP Scenario.app (Scenario.at_time 1500)
    ("/manage-secret/" ++ Scenario.id2 ++ "/delete")
    (mkRequest "GET" None [] []) Scenario.one
  = Some (handleGetIndex (mkRequest "GET" None [] []), Scenario.one).
Proof.
  apply (get_requests_change_nothing Scenario.app (Scenario.at_time 1500) "/"
           (mkRequest "GET" None [] []) Scenario.one eq_refl).
  split; reflexivity.
Defined.

Lemma handleManageSecret_pair (a : Application) (e : Env) (r : Request) (st : World) :
  handleManageSecret a e r st = (fst (handleManageSecret a e r st), st).
Proof.
  rewrite <- (handleManageSecret_world a e r st) at 3. apply surjective_pairing.
Qed.

Lemma handleGetSecret_pair (e : Env) (r : Request) (st : World) :
  handleGetSecret e r st = (fst (handleGetSecret e r st), st).
Proof.
  rewrite <- (handleGetSecret_world e r st) at 3. apply surjective_pairing.
Qed.

(** X13. The links the handlers hand out lead to the secret.  After a
    create that stored a secret, the location of its response, asked for
    with GET, is routed to the manage handler and renders the manage
    page of that secret; the viewing URL of that page, past the base
    URL, is routed with GET to the view handler and renders the envelope
    as it was sent; the delete URL of that page, past the base URL, is
    routed with POST to the delete handler and is answered with the
    success response; and after that both the viewing link and the
    manage link are answered as not found. *)
Theorem links_lead_to_the_secret
    (a : Application) (ec : Env) (rc : Request) (st0 : World)
    (form : list (string * string)) (n : Z) (d1 d2 : Draw) (rest : list Draw)
    (e : Env) (rg rp : Request) :
  Form rc = Some form ->
  Go.strings_Count (envelope_of form) "." = 2%nat ->
  Go.strconv_Atoi (ttl_of form) = Some n ->
  entropy st0 = d1 :: d2 :: rest ->
  (24 <= List.length d1)%nat ->
  (24 <= List.length d2)%nat ->
  db_up ec = true ->
  let viewingID := Go.hex_EncodeToString (firstn 24 d1) in
  let managementID := Go.hex_EncodeToString (firstn 24 d2) in
  unique_violation (secrets st0) viewingID managementID = false ->
  db_up e = true ->
  Method rg = "GET"%string ->
  Method rp = "POST"%string ->
  let st1 := snd (handleCreateSecret ec rc st0) in
  exists loc vpath dpath st2,
    location (fst (handleCreateSecret ec rc st0)) = Some loc
    /\ (exists resp,
          ServeHTTP a e loc rg st1 = Some (resp, st1)
          /\ body resp =
             [pageManageSecret managementID (baseURL a ++ vpath)%string
                (baseURL a ++ dpath)%string
                (fst (notificationsFromRequest rg newResponseWriter))])
    /\ (exists resp,
          ServeHTTP a e vpath rg st1 = Some (resp, st1)
          /\ body resp =
             [pageViewSecret (envelope_of form)
                (fst (notificationsFromRequest rg newResponseWriter))])
    /\ ServeHTTP a e dpath rp st1 = Some (deleted rp, st2)
    /\ ServeHTTP a e vpath rg st2 = Some (notFound rg, st2)
    /\ ServeHTTP a e loc rg st2 = Some (notFound rg, st2).
Proof.
  intros Hf Hc Ht He H1 H2 Hupc v m Hu Hup Hg Hp st1.
  pose proof (handleCreateSecret_ok ec rc st0 form n d1 d2 rest
                Hf Hc Ht He H1 H2 Hupc Hu) as Hcreate.
  fold v m in Hcreate.
  assert (Hv : is_identifier v) by (apply is_identifier_hex; exact H1).
  assert (Hm : is_identifier m) by (apply is_identifier_hex; exact H2).
  assert (HG : is_GET (Method rg) = true) by (rewrite Hg; reflexivity).
  set (rm := with_PathValue rg "managementID" m).
  set (rv := with_PathValue rg "viewingID" v).
  set (rd := with_PathValue rp "managementID" m).
  assert (Hst1 : secrets st1
                 = secrets st0 ++ [mkSecret v m (Some (envelope_of form)) n (now ec)
                                     None None])
    by (unfold st1; rewrite Hcreate; reflexivity).
  assert (Hscrub : scrubbed v m (secrets (snd (handleDeleteSecret e rd st1)))).
  { apply (deleted_life_scrubbed a st0 ec rc [] e rd []
             (mkSecret v m (Some (envelope_of form)) n (now ec) None None));
      [exact Hst1|reflexivity|exact Hup]. }
  exists ("/manage-secret/" ++ m)%string, ("/secret/" ++ v)%string,
    ("/manage-secret/" ++ m ++ "/delete")%string,
    (snd (handleDeleteSecret e rd st1)).
  split; [|split; [|split; [|split; [|split]]]].
  - rewrite Hcreate. apply location_created.
  - exists (managePage a rm v). unfold ServeHTTP.
    rewrite (mapRoutes_manage _ m Hm HG). fold rm.
    rewrite handleManageSecret_pair, handleManageSecret_cases, Hup.
    replace (PathValue rm "managementID") with m by reflexivity.
    rewrite Hst1, (sql_select_viewing_id_new _ _ _ _ _ _ Hu). split; [reflexivity|].
    apply (rendered rm (fun x => pageManageSecret m _ _ x)).
  - exists (viewPage rv (envelope_of form)). unfold ServeHTTP.
    rewrite (mapRoutes_secret _ v Hv HG). fold rv.
    rewrite (handleGetSecret_found e rv st1 (envelope_of form) Hup).
    + split; [reflexivity|].
      apply (rendered rv (fun x => pageViewSecret (envelope_of form) x)).
    + replace (PathValue rv "viewingID") with v by reflexivity.
      rewrite Hst1. apply sql_select_cipher_text_new. exact Hu.
  - unfold ServeHTTP. rewrite Hp.
    destruct (mapRoutes_delete m Hm) as [Hd _]. rewrite Hd. fold rd.
    rewrite handleDeleteSecret_cases, Hup. cbn [snd].
    unfold deleted, rd, with_PathValue, Redirect. reflexivity.
  - unfold ServeHTTP. rewrite (mapRoutes_secret _ v Hv HG). fold rv.
    rewrite handleGetSecret_pair, (handleGetSecret_no_row e rv), Hup.
    + unfold notFound, rv, with_PathValue, Redirect. reflexivity.
    + apply (scrubbed_no_row _ m). exact Hscrub.
  - unfold ServeHTTP. rewrite (mapRoutes_manage _ m Hm HG). fold rm.
    rewrite handleManageSecret_pair, handleManageSecret_cases, Hup.
    replace (PathValue rm "managementID") with m by reflexivity.
    rewrite (scrubbed_no_active_row v m _ Hscrub).
    unfold notFound, rm, with_PathValue, Redirect. reflexivity.
Qed.

Lemma links_lead_to_the_secret_witness :
  exists loc vpath dpath st2,
    location (fst (handleCreateSecret (Scenario.at_time 1000)
                     (Scenario.create "abc.def.ghi" "3600") Scenario.empty))
    = Some loc
    /\ (exists resp,
          ServeHTTP Scenario.app (Scenario.at_time 2000) loc
            (mkRequest "GET" None [] []) Scenario.one = Some (resp, Scenario.one)
          /\ body resp =
             [pageManageSecret Scenario.id2 (baseURL Scenario.app ++ vpath)%string
                (baseURL Scenario.app ++ dpath)%string (mkNotifications "" "")])
    /\ (exists resp,
          ServeHTTP Scenario.app (Scenario.at_time 2000) vpath
            (mkRequest "GET" None [] []) Scenario.one = Some (resp, Scenario.one)
          /\ body resp = [pageViewSecret "abc.def.ghi" (mkNotifications "" "")])
    /\ ServeHTTP Scenario.app (Scenario.at_time 2000) dpath
         (mkRequest "POST" None [] []) Scenario.one
       = Some (deleted (mkRequest "POST" None [] []), st2)
    /\ ServeHTTP Scenario.app (Scenario.at_time 2000) vpath
         (mkRequest "GET" None [] []) st2
       = Some (notFound (mkRequest "GET" None [] []), st2)
    /\ ServeHTTP Scenario.app (Scenario.at_time 2000) loc
         (mkRequest "GET" None [] []) st2
       = Some (notFound (mkRequest "GET" None [] []), st2).
Proof.
  apply (links_lead_to_the_secret Scenario.app (Scenario.at_time 1000)
           (Scenario.create "abc.def.ghi" "3600") Scenario.empty
           [("ttl", "3600"); ("encryptedSecret", "abc.def.ghi")] 3600
           Scenario.draw1 Scenario.draw2 [Scenario.draw3; Scenario.draw4]
           (Scenario.at_time 2000) (mkRequest "GET" None [] [])
           (mkRequest "POST" None [] []));
    try reflexivity; vm_compute; lia.
Defined.

(** ** What a create gives away *)

Lemma created_response (e : Env) (r : Request) (st : World) (s : Secret) :
  secrets (snd (handleCreateSecret e r st)) = secrets st ++ [s] ->
  fst (handleCreateSecret e r st) = created r (management_id s).
Proof.
  intros H.
  destruct (handleCreateSecret_inversion e r st)
    as [[msg H']|[[src H']|(form & n & d1 & d2 & rest & _ & _ & _ & _ & _ & _
                             & _ & _ & H')]];
    rewrite H' in H |- *; cbn [fst snd secrets] in H |- *.
  - apply (f_equal (@List.length Secret)) in H. rewrite length_app in H.
    simpl in H. lia.
  - apply (f_equal (@List.length Secret)) in H. rewrite length_app in H.
    simpl in H. lia.
  - apply app_inv_head in H. inversion H. reflexivity.
Qed.

(** X14. The response of a create gives the management identifier and
    nothing else of the secret.  Two creates of the same request that
    each stored a row, in whatever worlds and at whatever times, are
    answered alike as soon as the two rows have the same management
    identifier, however their viewing identifiers differ. *)
Theorem create_response_hides_viewing_id (e e' : Env) (r : Request)
    (st st' : World) (s s' : Secret) :
  secrets (snd (handleCreateSecret e r st)) = secrets st ++ [s] ->
  secrets (snd (handleCreateSecret e' r st')) = secrets st' ++ [s'] ->
  management_id s = management_id s' ->
  fst (handleCreateSecret e r st) = fst (handleCreateSecret e' r st').
Proof.
  intros H H' Hm.
  rewrite (created_response e r st s H), (created_response e' r st' s' H'), Hm.
  reflexivity.
Qed.

Lemma create_response_hides_viewing_id_witness :
  fst (handleCreateSecret (Scenario.at_time 1000)
         (Scenario.create "abc.def.ghi" "3600") Scenario.empty)
  = fst (handleCreateSecret (Scenario.at_time 7000)
           (Scenario.create "abc.def.ghi" "3600")
           (mkWorld [] [Scenario.draw3; Scenario.draw2])).
Proof.
  apply (create_response_hides_viewing_id (Scenario.at_time 1000)
           (Scenario.at_time 7000) (Scenario.create "abc.def.ghi" "3600")
           Scenario.empty (mkWorld [] [Scenario.draw3; Scenario.draw2])
           Scenario.secret1
           (mkSecret "030303030303030303030303030303030303030303030303" Scenario.id2
              (Some "abc.def.ghi") 3600 7000 None None));
    reflexivity.
Defined.

(** ** Times of creation and deletion *)

Lemma times_ordered_later (t0 t1 : Z) (t : Table) :
  t0 <= t1 -> times_ordered t0 t -> times_ordered t1 t.
Proof.
  intros Hle H s Hs. destruct (H s Hs) as [Hc Hd]. split; [lia|].
  intros d Hdel. specialize (Hd d Hdel). lia.
Qed.

Lemma times_ordered_serve (a : Application) (c : Call) (e : Env) (r : Request)
    (st : World) (t0 : Z) :
  t0 <= now e -> times_ordered t0 (secrets st) ->
  times_ordered (now e) (secrets (snd (serve a c e r st))).
Proof.
  intros Hle H. pose proof (times_ordered_later t0 (now e) _ Hle H) as Hnow.
  destruct c; simpl.
  - destruct (handleCreateSecret_inversion e r st)
      as [[msg H']|[[src H']|(form & n & d1 & d2 & rest & _ & _ & _ & _ & _ & _
                               & _ & _ & H')]];
      rewrite H'; cbn [snd secrets]; [exact Hnow..|].
    intros s Hs. apply in_app_or in Hs. destruct Hs as [Hs|[<-|[]]].
    + apply Hnow. exact Hs.
    + simpl. split; [lia|discriminate].
  - rewrite handleGetSecret_world. exact Hnow.
  - rewrite handleManageSecret_world. exact Hnow.
  - rewrite handleDeleteSecret_cases.
    destruct (db_up e); cbn [snd secrets]; [|exact Hnow].
    intros s' Hs'. apply in_sql_update_deleted in Hs'.
    destruct Hs' as (s & Hs & ->).
    destruct (String.eqb (management_id s) _); [|apply Hnow; exact Hs].
    destruct (Hnow s Hs) as [Hc _]. simpl. split; [exact Hc|].
    intros d Hd. inversion Hd. subst d. lia.
Qed.

Lemma times_ordered_run (a : Application) (calls : list (Call * Env * Request))
    (st : World) (t0 : Z) :
  clock_runs_forward t0 calls = true ->
  times_ordered t0 (secrets st) ->
  exists t1, t0 <= t1 /\ times_ordered t1 (secrets (run a calls st)).
Proof.
  revert st t0. induction calls as [|[[c e] r] rest IH]; intros st t0 Hclock H.
  - exists t0. split; [lia|exact H].
  - simpl in Hclock. apply andb_true_iff in Hclock. destruct Hclock as [Hle Hrest].
    apply Z.leb_le in Hle.
    destruct (IH (snd (serve a c e r st)) (now e) Hrest
                (times_ordered_serve a c e r st t0 Hle H)) as (t1 & Ht1 & Hord).
    exists t1. split; [lia|exact Hord].
Qed.

(** X15. While the clock does not go back, no row is deleted before it
    was created: in every table the handlers build from an empty one
    with requests whose times never decrease, each row with a time of
    deletion has it at or after its time of creation, a second delete
    included. *)
Theorem deleted_at_not_before_created_at (a : Application)
    (calls : list (Call * Env * Request)) (src : list Draw) (t0 : Z) :
  clock_runs_forward t0 calls = true ->
  forall s d,
    In s (secrets (run a calls (mkWorld [] src))) ->
    deleted_at s = Some d ->
    created_at s <= d.
Proof.
  intros Hclock s d Hs Hd.
  destruct (times_ordered_run a calls (mkWorld [] src) t0 Hclock) as (t1 & _ & Hord).
  - intros s' [].
  - destruct (Hord s Hs) as [_ H]. apply (H d Hd).
Qed.

Lemma deleted_at_not_before_created_at_witness :
  created_at (mkSecret Scenario.id1 Scenario.id2 None 3600 1000 (Some 3000)
                (Some deletionReasonUserDeleted))
  <= 3000.
Proof.
  apply (deleted_at_not_before_created_at Scenario.app
           [(CreateSecret, Scenario.at_time 1000, Scenario.create "abc.def.ghi" "3600");
            (DeleteSecret, Scenario.at_time 2000, Scenario.delete Scenario.id2);
            (DeleteSecret, Scenario.at_time 3000, Scenario.delete Scenario.id2)]
           [Scenario.draw1; Scenario.draw2; Scenario.draw3; Scenario.draw4] 0
           eq_refl
           (mkSecret Scenario.id1 Scenario.id2 None 3600 1000 (Some 3000)
              (Some deletionReasonUserDeleted))
           3000).
  - vm_compute. left. reflexivity.
  - reflexivity.
Defined.
